(** * c-morse: boot core and button transmitter of an RP2040 firmware

  A shallow embedding of [src/startup.c] (vector table, weak handler
  aliases, reset handler, default handler) and of [src/transmitter.c]
  (register blocks, [delay], the IO bank 0 interrupt handler, [main]),
  followed by the properties of the specification that were checked
  against them. *)

From Stdlib Require Import ZArith List Lia Bool.
From stdpp Require Import base decidable functions list numbers.
Import ListNotations.
Local Open Scope Z_scope.

(** ** Function symbols of the firmware image *)

Module Sym.

(** The function symbols [startup.c] declares, defines or refers to. *)
Inductive t : Set :=
| defaultHandler | resetHandler
| nmiHandler | hardFaultHandler | svCallHandler | pendSvHandler
| sysTickHandler
| timerIrq0 | timerIrq1 | timerIrq2 | timerIrq3 | pwmIrqWrap | usbctrlIrq
| xipIrq | pio0Irq0 | pio0Irq1 | pio1Irq0 | pio1Irq1 | dmaIrq0 | dmaIrq1
| ioIrqBank0 | ioIrqQspi | sioIrqProc0 | sioIrqProc1 | clocksIrq | spi0Irq
| spi1Irq | uart0Irq | uart1Irq | adcIrqFifo | i2c0Irq | i2c1Irq | rtcIrq
| main.

#[global] Instance eq_dec : EqDecision t.
Proof. solve_decision. Defined.

Definition all : list t :=
  [ defaultHandler; resetHandler; nmiHandler; hardFaultHandler;
    svCallHandler; pendSvHandler; sysTickHandler; timerIrq0; timerIrq1;
    timerIrq2; timerIrq3; pwmIrqWrap; usbctrlIrq; xipIrq; pio0Irq0;
    pio0Irq1; pio1Irq0; pio1Irq1; dmaIrq0; dmaIrq1; ioIrqBank0; ioIrqQspi;
    sioIrqProc0; sioIrqProc1; clocksIrq; spi0Irq; spi1Irq; uart0Irq;
    uart1Irq; adcIrqFifo; i2c0Irq; i2c1Irq; rtcIrq; main ].

End Sym.

(** ** Link-time binding of handler symbols ([startup.c], lines 22-68) *)

Module Link.

(** How [startup.c] introduces a function symbol: defined in the file
    itself, declared [__attribute__((weak, alias(target)))], or declared
    [extern] and left to another translation unit. *)
Inductive linkage : Set :=
| Strong
| WeakAlias (target : Sym.t)
| Extern.

Definition declared (s : Sym.t) : linkage :=
  match s with
  | Sym.defaultHandler | Sym.resetHandler => Strong
  | Sym.main => Extern
  | _ => WeakAlias Sym.defaultHandler
  end.

(** The code a symbol is bound to in the linked image: a function body of
    [startup.c], or the strong definition of that symbol supplied by the
    application. *)
Inductive code : Set :=
| Here (s : Sym.t)
| App (s : Sym.t).

#[global] Instance code_eq_dec : EqDecision code.
Proof. solve_decision. Defined.

(** Number of strong definitions of [s] among the application's objects
    ([app] lists the symbol of every such definition). *)
Definition defs_in (app : list Sym.t) (s : Sym.t) : nat :=
  length (filter (λ x, x = s) app).

(** The linker accepts a symbol when it ends up with one definition: no
    second strong definition, at most one override of a weak one, exactly
    one definition of an undefined reference. *)
Definition link_ok (app : list Sym.t) (s : Sym.t) : bool :=
  match declared s with
  | Strong => Nat.eqb (defs_in app s) 0
  | WeakAlias _ => Nat.leb (defs_in app s) 1
  | Extern => Nat.eqb (defs_in app s) 1
  end.

Definition resolve (app : list Sym.t) (s : Sym.t) : code :=
  match declared s with
  | Strong => Here s
  | WeakAlias target => if Nat.ltb 0 (defs_in app s) then App s else Here target
  | Extern => App s
  end.

(** [link app] is the symbol binding of the image, or [None] when the
    link fails. *)
Definition link (app : list Sym.t) : option (Sym.t → code) :=
  if forallb (link_ok app) Sym.all then Some (resolve app) else None.

End Link.

(** ** Memory-mapped registers ([transmitter.c], lines 4-68) *)

Module Hw.

Inductive periph : Set := SIO | IO_BANK0 | PADS_BANK0 | RESETS | NVIC.

(** [SIO_BASE], [IO_BANK0_BASE], [PADS_BANK0_BASE], [RESETS_BASE],
    [NVIC_BASE]. *)
Definition base (p : periph) : Z :=
  match p with
  | SIO => 0xd0000000
  | IO_BANK0 => 0x40014000
  | PADS_BANK0 => 0x4001c000
  | RESETS => 0x4000c000
  | NVIC => 0xe000e000
  end.

(** One constructor per field of [struct sio_hw], [struct io_bank0_hw]
    and [struct pads_bank0_hw], plus the two registers reached through a
    plain pointer: [RESETS_BASE + 0x0] and [NVIC_ISER]. *)
Inductive reg : Set :=
| sio_cpuid | sio_gpio_in | sio_gpio_hi_in | sio_unused
| sio_gpio_out | sio_gpio_out_set | sio_gpio_out_clr | sio_gpio_out_xor
| sio_gpio_oe | sio_gpio_oe_set | sio_gpio_oe_clr | sio_gpio_oe_xor
| io_gpio_status (n : nat) | io_gpio_ctrl (n : nat)
| io_intr (k : nat) | io_proc0_inte (k : nat)
| io_proc0_intf (k : nat) | io_proc0_ints (k : nat)
| pads_voltage_select | pads_gpio (n : nat) | pads_swclk | pads_swd
| RESETS_RESET
| NVIC_ISER.

#[global] Instance reg_eq_dec : EqDecision reg.
Proof. solve_decision. Defined.

Definition block (r : reg) : periph :=
  match r with
  | sio_cpuid | sio_gpio_in | sio_gpio_hi_in | sio_unused
  | sio_gpio_out | sio_gpio_out_set | sio_gpio_out_clr | sio_gpio_out_xor
  | sio_gpio_oe | sio_gpio_oe_set | sio_gpio_oe_clr | sio_gpio_oe_xor => SIO
  | io_gpio_status _ | io_gpio_ctrl _ | io_intr _ | io_proc0_inte _
  | io_proc0_intf _ | io_proc0_ints _ => IO_BANK0
  | pads_voltage_select | pads_gpio _ | pads_swclk | pads_swd => PADS_BANK0
  | RESETS_RESET => RESETS
  | NVIC_ISER => NVIC
  end.

(** Byte offset of a register in its block: the position of the field in
    its struct, every field being a [uint32_t]. *)
Definition offset (r : reg) : Z :=
  match r with
  | sio_cpuid => 0x00 | sio_gpio_in => 0x04 | sio_gpio_hi_in => 0x08
  | sio_unused => 0x0c | sio_gpio_out => 0x10 | sio_gpio_out_set => 0x14
  | sio_gpio_out_clr => 0x18 | sio_gpio_out_xor => 0x1c
  | sio_gpio_oe => 0x20 | sio_gpio_oe_set => 0x24
  | sio_gpio_oe_clr => 0x28 | sio_gpio_oe_xor => 0x2c
  | io_gpio_status n => 8 * Z.of_nat n
  | io_gpio_ctrl n => 8 * Z.of_nat n + 4
  | io_intr k => 0xf0 + 4 * Z.of_nat k
  | io_proc0_inte k => 0x100 + 4 * Z.of_nat k
  | io_proc0_intf k => 0x110 + 4 * Z.of_nat k
  | io_proc0_ints k => 0x120 + 4 * Z.of_nat k
  | pads_voltage_select => 0x00
  | pads_gpio n => 4 + 4 * Z.of_nat n
  | pads_swclk => 0x7c | pads_swd => 0x80
  | RESETS_RESET => 0x0
  | NVIC_ISER => 0x100
  end.

Definition addr (r : reg) : Z := base (block r) + offset r.

(** *** Device behaviour

    The C code only issues loads and stores; what a store does to the
    device is the RP2040's business.  The following is the behaviour of
    the registers above as the RP2040 datasheet documents it: the SIO
    set, clear and xor registers update [gpio_out] and [gpio_oe]; the
    edge bits of the raw interrupt register [intr] are cleared by writing
    one and its level bits are read-only; the interrupt status is the raw
    interrupt masked by the enable register or forced by the force
    register; the NVIC set-enable register sets the bits written as one.
    Input pins do not change between two accesses.  The registers are
    those of blocks that are out of reset: a store is not gated by the
    block's bit in [RESETS_RESET], so a statement about a store to a block
    that [main] does not release takes the release as a premise. *)

Abbreviation device := (reg → Z).

(** The edge-low and edge-high bits of the eight pins of one [intr]
    word. *)
Definition edge_bits : Z := 0xcccccccc.

Definition read (d : device) (r : reg) : Z :=
  match r with
  | io_proc0_ints k =>
      Z.lor (Z.land (d (io_intr k)) (d (io_proc0_inte k))) (d (io_proc0_intf k))
  | sio_gpio_out_set | sio_gpio_out_clr | sio_gpio_out_xor
  | sio_gpio_oe_set | sio_gpio_oe_clr | sio_gpio_oe_xor => 0
  | _ => d r
  end.

Definition write (d : device) (r : reg) (v : Z) : device :=
  match r with
  | sio_gpio_out_set => <[sio_gpio_out := Z.lor (d sio_gpio_out) v]> d
  | sio_gpio_out_clr => <[sio_gpio_out := Z.ldiff (d sio_gpio_out) v]> d
  | sio_gpio_out_xor => <[sio_gpio_out := Z.lxor (d sio_gpio_out) v]> d
  | sio_gpio_oe_set => <[sio_gpio_oe := Z.lor (d sio_gpio_oe) v]> d
  | sio_gpio_oe_clr => <[sio_gpio_oe := Z.ldiff (d sio_gpio_oe) v]> d
  | sio_gpio_oe_xor => <[sio_gpio_oe := Z.lxor (d sio_gpio_oe) v]> d
  | io_intr k => <[io_intr k := Z.ldiff (d (io_intr k)) (Z.land v edge_bits)]> d
  | NVIC_ISER => <[NVIC_ISER := Z.lor (d NVIC_ISER) v]> d
  | sio_cpuid | sio_gpio_in | sio_gpio_hi_in | sio_unused
  | io_gpio_status _ | io_proc0_ints _ => d
  | _ => <[r := v]> d
  end.

(** The register a store to [r] acts upon. *)
Definition target (r : reg) : reg :=
  match r with
  | sio_gpio_out_set | sio_gpio_out_clr | sio_gpio_out_xor => sio_gpio_out
  | sio_gpio_oe_set | sio_gpio_oe_clr | sio_gpio_oe_xor => sio_gpio_oe
  | _ => r
  end.

(** Registers whose bits the RP2040 lets software set or clear with a
    single store: the SIO output and output-enable registers through
    their set/clear/xor companions, and every register of a peripheral
    on the APB/AHB-Lite bus through the block's atomic alias addresses
    (xor at +0x1000, set at +0x2000, clear at +0x3000). *)
Definition atomic_alias (r : reg) : bool :=
  match r with
  | sio_gpio_out | sio_gpio_oe => true
  | _ => match block r with
         | IO_BANK0 | PADS_BANK0 | RESETS => true
         | SIO | NVIC => false
         end
  end.

End Hw.

(** ** Execution model

  A C function is a state transformer over the device and the log of
  what the processor did, newest event first.  A loop without a static
  bound takes fuel, one unit per evaluation of its condition. *)

Module Exec.

Inductive event : Set :=
| EvLoad (r : Hw.reg) (v : Z)     (* volatile read *)
| EvStore (r : Hw.reg) (v : Z)    (* volatile write *)
| EvNop                           (* __asm("nop") *)
| EvWfi                           (* __asm volatile("wfi") *)
| EvCall (s : Sym.t).             (* call of an external function *)

#[global] Instance event_eq_dec : EqDecision event.
Proof. solve_decision. Defined.

Record machine : Type := Machine { dev : Hw.device; log : list event }.

Inductive outcome (A : Type) : Type :=
| Done (a : A)
| OutOfFuel.
Arguments Done {A} a.
Arguments OutOfFuel {A}.

Definition M (A : Type) : Type := machine → outcome A * machine.

Definition ret {A} (a : A) : M A := λ m, (Done a, m).

Definition bind {A B} (c : M A) (k : A → M B) : M B :=
  λ m, match c m with
       | (Done a, m') => k a m'
       | (OutOfFuel, m') => (OutOfFuel, m')
       end.

Definition emit (e : event) : M unit :=
  λ m, (Done tt, Machine (dev m) (e :: log m)).

Definition load (r : Hw.reg) : M Z :=
  λ m, let v := Hw.read (dev m) r in
       (Done v, Machine (dev m) (EvLoad r v :: log m)).

Definition store (r : Hw.reg) (v : Z) : M unit :=
  λ m, (Done tt, Machine (Hw.write (dev m) r v) (EvStore r v :: log m)).

Definition nop : M unit := emit EvNop.
Definition wfi : M unit := emit EvWfi.

(** [while (cond) body] *)
Fixpoint while (fuel : nat) (cond : M bool) (body : M unit) : M unit :=
  match fuel with
  | O => λ m, (OutOfFuel, m)
  | S fuel' =>
      bind cond (λ c, if c : bool
                      then bind body (λ _, while fuel' cond body)
                      else ret tt)
  end.

(** [for (i = from; i < to; i = next i) body] *)
Fixpoint for_lt (fuel : nat) (next : Z → Z) (i to : Z) (body : M unit)
  : M unit :=
  match fuel with
  | O => λ m, (OutOfFuel, m)
  | S fuel' =>
      if i <? to
      then bind body (λ _, for_lt fuel' next (next i) to body)
      else ret tt
  end.

(** The events of a run in the order they happened. *)
Definition trace (m : machine) : list event := rev (log m).

Declare Scope exec_scope.
Delimit Scope exec_scope with exec.
Bind Scope exec_scope with M.
Notation "x ← y ; z" := (bind y (λ x, z))
  (at level 20, y at level 100, z at level 200, only parsing) : exec_scope.
Notation "y ;; z" := (bind y (λ _, z))
  (at level 100, z at level 200, only parsing, right associativity)
  : exec_scope.

End Exec.

(** ** The vector table ([startup.c], lines 74-129) *)

Module Startup.

(** One initialiser of [vector]: [(vectFunc)(&_sstack)], a function
    symbol, or the constant [0]. *)
Inductive entry : Set :=
| StackTop
| Fn (s : Sym.t)
| Null.

#[global] Instance entry_eq_dec : EqDecision entry.
Proof. solve_decision. Defined.

Definition vector : list entry :=
  [ StackTop;                 (* Initial Stack Pointer value *)
    Fn Sym.resetHandler;      (* Reset Handler *)
    Fn Sym.nmiHandler;        (* Non-Maskable Interrupt Handler *)
    Fn Sym.hardFaultHandler;  (* Hard Fault Handler *)
    Null; Null; Null; Null; Null; Null; Null;   (* Reserved *)
    Fn Sym.svCallHandler;     (* SVCall Handler *)
    Null; Null;               (* Reserved *)
    Fn Sym.pendSvHandler;     (* PendSV Handler *)
    Fn Sym.sysTickHandler;    (* SysTick Handler *)
    Fn Sym.timerIrq0; Fn Sym.timerIrq1; Fn Sym.timerIrq2; Fn Sym.timerIrq3;
    Fn Sym.pwmIrqWrap; Fn Sym.usbctrlIrq; Fn Sym.xipIrq;
    Fn Sym.pio0Irq0; Fn Sym.pio0Irq1; Fn Sym.pio1Irq0; Fn Sym.pio1Irq1;
    Fn Sym.dmaIrq0; Fn Sym.dmaIrq1;
    Fn Sym.ioIrqBank0; Fn Sym.ioIrqQspi;
    Fn Sym.sioIrqProc0; Fn Sym.sioIrqProc1;
    Fn Sym.clocksIrq; Fn Sym.spi0Irq; Fn Sym.spi1Irq;
    Fn Sym.uart0Irq; Fn Sym.uart1Irq; Fn Sym.adcIrqFifo;
    Fn Sym.i2c0Irq; Fn Sym.i2c1Irq; Fn Sym.rtcIrq;
    Null; Null; Null; Null; Null; Null ].       (* Reserved *)

(** What a slot of the table holds in the linked image. *)
Inductive slot : Set :=
| SlotStack
| SlotCode (c : Link.code)
| SlotNull.

Definition bind_entry (r : Sym.t → Link.code) (e : entry) : slot :=
  match e with
  | StackTop => SlotStack
  | Fn s => SlotCode (r s)
  | Null => SlotNull
  end.

Definition image (r : Sym.t → Link.code) : list slot :=
  bind_entry r <$> vector.

(** Indices of the initialisers written [0] and commented "Reserved". *)
Definition reserved : list nat :=
  [4; 5; 6; 7; 8; 9; 10; 12; 13; 42; 43; 44; 45; 46; 47]%nat.

Import Exec.
Local Open Scope exec_scope.

(** [resetHandler] (lines 134-138).  [main] is [extern]: the handler is
    given the function the linker binds to that symbol. *)
Definition resetHandler (main : nat → M Z) (fuel : nat) : M unit :=
  emit (EvCall Sym.main);;
  _ ← main fuel;
  while fuel (ret true) (ret tt).

(** [defaultHandler] (lines 150-155). *)
Definition defaultHandler (fuel : nat) : M unit :=
  while fuel (ret true) wfi.

End Startup.

(** ** The application ([transmitter.c]) *)

Module Transmitter.

Import Hw Exec.
Local Open Scope exec_scope.

Definition BUTTON_PIN : Z := 16.
Definition SPEAKER_PIN : Z := 21.
Definition LED_PIN : Z := 25.
Definition GPIO_FUNC_SIO : Z := 5.
Definition GPIO_INT_EDGE_HIGH : Z := 0x8.
Definition IO_BANK0_IRQ : Z := 13.

(** [~x] on a [uint32_t]. *)
Definition not32 (x : Z) : Z := Z.lxor x 0xffffffff.

(** Index of an array element, from the C expression that computes it. *)
Definition idx (i : Z) : nat := Z.to_nat i.

(** [delay] (lines 71-75): the counter is a [uint32_t], so its increment
    wraps at 2^32. *)
Definition delay (count : Z) : M unit :=
  for_lt (Z.to_nat count + 1) (λ i, (i + 1) mod 2 ^ 32) 0 count nop.

(** [ioIrqBank0] (lines 78-99). *)
Definition ioIrqBank0 : M unit :=
  ints ← load (io_proc0_ints (idx (BUTTON_PIN ÷ 8)));
  if negb (Z.land ints
             (Z.shiftl GPIO_INT_EDGE_HIGH (4 * Z.rem BUTTON_PIN 8)) =? 0)
  then
    store sio_gpio_out_set (Z.lor (Z.shiftl 1 LED_PIN) (Z.shiftl 1 SPEAKER_PIN));;
    delay 100000;;
    store sio_gpio_out_clr (Z.lor (Z.shiftl 1 LED_PIN) (Z.shiftl 1 SPEAKER_PIN));;
    store (io_intr (idx (BUTTON_PIN ÷ 8))) (Z.shiftl 0xF (4 * Z.rem BUTTON_PIN 8))
  else ret tt.

(** [main], lines 106-132: peripheral reset, pin configuration and
    interrupt setup. *)
Definition main_setup (fuel : nat) : M unit :=
  v ← load RESETS_RESET;
  store RESETS_RESET (Z.land v (not32 (Z.shiftl 1 5)));;
  while fuel
    (v ← load RESETS_RESET; ret (negb (Z.land v (Z.shiftl 1 5) =? 0)))
    (ret tt);;
  store (io_gpio_ctrl (idx BUTTON_PIN)) GPIO_FUNC_SIO;;
  store sio_gpio_oe_clr (Z.shiftl 1 BUTTON_PIN);;
  store (pads_gpio (idx BUTTON_PIN)) (Z.lor (Z.shiftl 1 3) (Z.shiftl 1 6));;
  store (io_gpio_ctrl (idx LED_PIN)) GPIO_FUNC_SIO;;
  store sio_gpio_oe_set (Z.shiftl 1 LED_PIN);;
  store (io_gpio_ctrl (idx SPEAKER_PIN)) GPIO_FUNC_SIO;;
  store sio_gpio_oe_set (Z.shiftl 1 SPEAKER_PIN);;
  store (io_intr (idx (BUTTON_PIN ÷ 8))) (Z.shiftl 0xF (4 * Z.rem BUTTON_PIN 8));;
  v ← load (io_proc0_inte (idx (BUTTON_PIN ÷ 8)));
  store (io_proc0_inte (idx (BUTTON_PIN ÷ 8)))
    (Z.lor v (Z.shiftl GPIO_INT_EDGE_HIGH (4 * Z.rem BUTTON_PIN 8)));;
  store NVIC_ISER (Z.shiftl 1 IO_BANK0_IRQ).

(** [main], lines 135-147: startup test pattern and debug LED flash.
    The [for] loop tests its condition four times: three rounds and the
    exit. *)
Definition main_pattern : M unit :=
  for_lt 4 (λ i, i + 1) 0 3
    (store sio_gpio_out_set (Z.lor (Z.shiftl 1 LED_PIN) (Z.shiftl 1 SPEAKER_PIN));;
     delay 100000;;
     store sio_gpio_out_clr (Z.lor (Z.shiftl 1 LED_PIN) (Z.shiftl 1 SPEAKER_PIN));;
     delay 100000);;
  store sio_gpio_out_set (Z.shiftl 1 LED_PIN);;
  delay 500000;;
  store sio_gpio_out_clr (Z.shiftl 1 LED_PIN).

(** [main] (lines 101-155). *)
Definition main (fuel : nat) : M Z :=
  main_setup fuel;;
  main_pattern;;
  while fuel (ret true) wfi;;
  ret 0.

(** The strong definitions this translation unit contributes to the
    link. *)
Definition defs : list Sym.t := [Sym.ioIrqBank0; Sym.main].

End Transmitter.

(** ** The published vector layout

  The exception numbers of the ARMv6-M architecture (Cortex-M0+) and the
  interrupt numbers of the RP2040, as the ARMv6-M Architecture Reference
  Manual and the RP2040 datasheet list them.  This table is the
  reference the firmware's table is compared with; it is not taken from
  the firmware. *)

Module Reference.

Import Startup.

(** Exception number to vector: number 0 is the initial stack pointer,
    1 Reset, 2 NMI, 3 HardFault, 11 SVCall, 14 PendSV, 15 SysTick; the
    other numbers below 16 are reserved. *)
Definition armv6m_exception (n : nat) : entry :=
  match n with
  | 0 => StackTop
  | 1 => Fn Sym.resetHandler
  | 2 => Fn Sym.nmiHandler
  | 3 => Fn Sym.hardFaultHandler
  | 11 => Fn Sym.svCallHandler
  | 14 => Fn Sym.pendSvHandler
  | 15 => Fn Sym.sysTickHandler
  | _ => Null
  end%nat.

(** RP2040 interrupt request number to vector: TIMER_IRQ_0..3 are 0..3,
    PWM_IRQ_WRAP 4, USBCTRL_IRQ 5, XIP_IRQ 6, PIO0_IRQ_0/1 7 and 8,
    PIO1_IRQ_0/1 9 and 10, DMA_IRQ_0/1 11 and 12, IO_IRQ_BANK0 13,
    IO_IRQ_QSPI 14, SIO_IRQ_PROC0/1 15 and 16, CLOCKS_IRQ 17,
    SPI0_IRQ 18, SPI1_IRQ 19, UART0_IRQ 20, UART1_IRQ 21, ADC_IRQ_FIFO 22,
    I2C0_IRQ 23, I2C1_IRQ 24, RTC_IRQ 25; 26 to 31 have no source. *)
Definition rp2040_irq (n : nat) : entry :=
  match n with
  | 0 => Fn Sym.timerIrq0 | 1 => Fn Sym.timerIrq1
  | 2 => Fn Sym.timerIrq2 | 3 => Fn Sym.timerIrq3
  | 4 => Fn Sym.pwmIrqWrap | 5 => Fn Sym.usbctrlIrq | 6 => Fn Sym.xipIrq
  | 7 => Fn Sym.pio0Irq0 | 8 => Fn Sym.pio0Irq1
  | 9 => Fn Sym.pio1Irq0 | 10 => Fn Sym.pio1Irq1
  | 11 => Fn Sym.dmaIrq0 | 12 => Fn Sym.dmaIrq1
  | 13 => Fn Sym.ioIrqBank0 | 14 => Fn Sym.ioIrqQspi
  | 15 => Fn Sym.sioIrqProc0 | 16 => Fn Sym.sioIrqProc1
  | 17 => Fn Sym.clocksIrq | 18 => Fn Sym.spi0Irq | 19 => Fn Sym.spi1Irq
  | 20 => Fn Sym.uart0Irq | 21 => Fn Sym.uart1Irq
  | 22 => Fn Sym.adcIrqFifo | 23 => Fn Sym.i2c0Irq | 24 => Fn Sym.i2c1Irq
  | 25 => Fn Sym.rtcIrq
  | _ => Null
  end%nat.

(** Sixteen system exceptions followed by thirty-two interrupt lines. *)
Definition layout : list entry :=
  (armv6m_exception <$> seq 0 16) ++ (rp2040_irq <$> seq 0 32).

End Reference.

(** ** Observations on a run *)

Module Obs.

Import Hw Exec.

(** The machine at the start of a run: a device state and an empty
    log. *)
Definition boot (d : device) : machine := Machine d [].

(** The interrupt source of the edge handler is the rising edge of the
    button pin.  Each pin owns four consecutive bits of an interrupt
    word (level low, level high, edge low, edge high) and a word serves
    eight pins. *)
Definition button_word : nat := Z.to_nat (Transmitter.BUTTON_PIN ÷ 8).
Definition button_bit : Z := 4 * Z.rem Transmitter.BUTTON_PIN 8 + 3.

(** The source reads asserted in the interrupt status of processor 0. *)
Definition pending (d : device) : bool :=
  Z.testbit (read d (io_proc0_ints button_word)) button_bit.

(** The source is forced through the interrupt force register. *)
Definition forced (d : device) : bool :=
  Z.testbit (d (io_proc0_intf button_word)) button_bit.

(** The LED and the speaker are both driven high. *)
Definition outputs_on (d : device) : bool :=
  Z.testbit (d sio_gpio_out) Transmitter.LED_PIN
  && Z.testbit (d sio_gpio_out) Transmitter.SPEAKER_PIN.

(** The LED and the speaker are both driven low. *)
Definition outputs_off (d : device) : bool :=
  negb (Z.testbit (d sio_gpio_out) Transmitter.LED_PIN)
  && negb (Z.testbit (d sio_gpio_out) Transmitter.SPEAKER_PIN).

(** A device in which the button has risen and fallen since the last
    clear (both edges of its pin are latched in [intr]), with the
    rising-edge interrupt enabled as [main] enables it. *)
Definition both_edges_latched : device :=
  <[io_intr 2%nat := 0xc]> (<[io_proc0_inte 2%nat := 0x8]> (λ _, 0)).

(** An application entry point that returns at once. *)
Definition returning_main : nat → M Z := λ _, ret 0.

(** The device after the stores of a trace, in order. *)
Definition replay (t : list event) (d : device) : device :=
  fold_left (λ d e, match e with EvStore r v => write d r v | _ => d end) t d.

(** The accesses of lines 106-132 of [main], started on device [d]. *)
Definition setup_events (d : device) : list event :=
  [ EvLoad RESETS_RESET (d RESETS_RESET);
    EvStore RESETS_RESET (Z.land (d RESETS_RESET) 0xffffffdf);
    EvLoad RESETS_RESET (Z.land (d RESETS_RESET) 0xffffffdf);
    EvStore (io_gpio_ctrl 16) 5;
    EvStore sio_gpio_oe_clr 0x10000;
    EvStore (pads_gpio 16) 0x48;
    EvStore (io_gpio_ctrl 25) 5;
    EvStore sio_gpio_oe_set 0x2000000;
    EvStore (io_gpio_ctrl 21) 5;
    EvStore sio_gpio_oe_set 0x200000;
    EvStore (io_intr 2) 0xF;
    EvLoad (io_proc0_inte 2) (d (io_proc0_inte 2));
    EvStore (io_proc0_inte 2) (Z.lor (d (io_proc0_inte 2)) 0x8);
    EvStore NVIC_ISER 0x2000 ].

(** One round of the startup test pattern, and the events of lines
    135-147 of [main]. *)
Definition blink_events : list event :=
  EvStore sio_gpio_out_set 0x2200000 :: repeat EvNop (Z.to_nat 100000)
  ++ EvStore sio_gpio_out_clr 0x2200000 :: repeat EvNop (Z.to_nat 100000).

Definition pattern_events : list event :=
  blink_events ++ blink_events ++ blink_events
  ++ EvStore sio_gpio_out_set 0x2000000 :: repeat EvNop (Z.to_nat 500000)
  ++ [EvStore sio_gpio_out_clr 0x2000000].

(** The events of one run of the edge handler started on device [d]. *)
Definition handler_events (d : device) : list event :=
  EvLoad (io_proc0_ints 2) (read d (io_proc0_ints 2))
  :: if pending d
     then EvStore sio_gpio_out_set 0x2200000
          :: repeat EvNop (Z.to_nat 100000)
          ++ [ EvStore sio_gpio_out_clr 0x2200000;
               EvStore (io_intr 2) 0xF ]
     else [].

(** The device at power-on as far as [main] can tell: every peripheral
    held in reset ([RESETS_RESET] reads [0x01ffffff]). *)
Definition in_reset : device := <[RESETS_RESET := 0x1ffffff]> (λ _, 0).

(** A store that updates a register in one bus access: to a set or
    clear register of the SIO, or to the write-one-to-clear raw
    interrupt word of the button. *)
Definition alias_store (e : event) : bool :=
  match e with
  | EvStore r _ =>
      bool_decide (r ∈ [sio_gpio_out_set; sio_gpio_out_clr; io_intr 2%nat])
  | _ => true
  end.

Definition is_load (e : event) : bool :=
  match e with EvLoad _ _ => true | _ => false end.

Definition is_store (e : event) : bool :=
  match e with EvStore _ _ => true | _ => false end.

Definition is_wfi (e : event) : bool :=
  match e with EvWfi => true | _ => false end.

(** The register an event accesses. *)
Definition reg_of (e : event) : option reg :=
  match e with
  | EvLoad r _ | EvStore r _ => Some r
  | _ => None
  end.

(** The registers a trace updates by a plain read-modify-write: a load
    of the register directly followed by a store to it, which is what
    [*r &= x] and [*r |= x] compile to. *)
Fixpoint rmw_regs (t : list event) : list reg :=
  match t with
  | [] => []
  | e :: t' =>
      match e, t' with
      | EvLoad r _, EvStore r' _ :: _ =>
          if decide (r = r') then r :: rmw_regs t' else rmw_regs t'
      | _, _ => rmw_regs t'
      end
  end.

End Obs.

(** ** Device states the application reaches *)

Module Effects.

Import Hw Exec.

(** The device after one round of the startup test pattern. *)
Definition blink_device (d : device) : device :=
  write (write d sio_gpio_out_set 0x2200000) sio_gpio_out_clr 0x2200000.

(** The device after the test pattern and the debug flash. *)
Definition pattern_device (d : device) : device :=
  write (write (blink_device (blink_device (blink_device d)))
           sio_gpio_out_set 0x2000000) sio_gpio_out_clr 0x2000000.

(** The device the edge handler leaves behind. *)
Definition handler_device (d : device) : device :=
  if Obs.pending d
  then write (write (write d sio_gpio_out_set 0x2200000)
                sio_gpio_out_clr 0x2200000) (io_intr 2) 0xF
  else d.

(** The registers the stores of lines 106-132 of [main] act upon. *)
Definition setup_touched : list reg :=
  [ RESETS_RESET; io_gpio_ctrl 16; io_gpio_ctrl 21; io_gpio_ctrl 25;
    sio_gpio_oe; pads_gpio 16; io_intr 2; io_proc0_inte 2; NVIC_ISER ].

(** A device in which the button's rising edge is forced. *)
Definition forced_button : device := <[io_proc0_intf 2%nat := 0x8]> (λ _, 0).

(** A device in which both edges of the button are latched, the rising
    edge is enabled and it is also forced. *)
Definition forced_and_latched : device :=
  <[io_proc0_intf 2%nat := 0x8]> Obs.both_edges_latched.

End Effects.

(** * Properties *)

Import Hw Exec.

(** ** Linking *)

Section LinkFacts.

Import Link.

Lemma link_Some app r : link app = Some r → r = resolve app.
Proof. unfold link. destruct (forallb _ _); congruence. Qed.

Lemma link_Some_ok app r s : link app = Some r → link_ok app s = true.
Proof.
  unfold link. destruct (forallb _ _) eqn:E; [intros _ | discriminate].
  rewrite forallb_forall in E. apply E. destruct s; simpl; tauto.
Qed.

Lemma defs_in_pos app s : (0 < defs_in app s)%nat ↔ s ∈ app.
Proof.
  unfold defs_in. induction app as [|x app IH]; simpl.
  - split; [lia | inversion 1].
  - rewrite filter_cons. destruct (decide (x = s)) as [->|Hne]; simpl.
    + split; [intros _; left | lia].
    + rewrite IH. split; [by right | ].
      intros Hin. apply elem_of_cons in Hin as [->|]; [done | done].
Qed.

Lemma defs_in_zero app s : defs_in app s = 0%nat ↔ s ∉ app.
Proof. rewrite <- defs_in_pos. lia. Qed.

(** A weak symbol is bound to its override when there is one and to its
    alias target otherwise. *)
Lemma resolve_weak app s target :
  declared s = WeakAlias target →
  resolve app s = if decide (s ∈ app) then App s else Here target.
Proof.
  intros Hd. unfold resolve. rewrite Hd.
  destruct (decide (s ∈ app)) as [Hin|Hin].
  - apply defs_in_pos in Hin. by destruct (Nat.ltb_spec 0 (defs_in app s)); [|lia].
  - apply defs_in_zero in Hin. by rewrite Hin.
Qed.

(** A symbol defined twice by the application is a link error. *)
Lemma link_duplicate app s : (2 ≤ defs_in app s)%nat → link app = None.
Proof.
  intros H2. destruct (link app) as [r|] eqn:E; [|done].
  pose proof (link_Some_ok app r s E) as Hok. unfold link_ok in Hok.
  destruct (declared s);
    [ apply Nat.eqb_eq in Hok | apply Nat.leb_le in Hok
    | apply Nat.eqb_eq in Hok ]; lia.
Qed.

(** The firmware of the repository links. *)
Lemma link_transmitter : link Transmitter.defs = Some (resolve Transmitter.defs).
Proof. reflexivity. Qed.

End LinkFacts.

(** ** The vector table *)

Section VectorFacts.

Import Link Startup.

Lemma vector_length : length vector = 48%nat.
Proof. reflexivity. Qed.

Lemma image_lookup r i : image r !! i = bind_entry r <$> vector !! i.
Proof. unfold image. apply list_lookup_fmap. Qed.

(** Every function symbol of the table other than [resetHandler] is a
    weak alias of [defaultHandler]. *)
Lemma vector_handlers_weak i s :
  vector !! i = Some (Fn s) → i ≠ 1%nat →
  declared s = WeakAlias Sym.defaultHandler.
Proof.
  intros Hi Hne.
  do 48 (destruct i as [|i]; [simpl in Hi; try done; by inversion Hi | ]).
  by rewrite lookup_ge_None_2 in Hi by (simpl; lia).
Qed.

(** What each index of the table holds: a function symbol outside the
    reserved indices, [0] at them. *)
Lemma vector_shape i :
  (2 ≤ i < 48)%nat →
  if decide (i ∈ reserved)
  then vector !! i = Some Null
  else ∃ s, vector !! i = Some (Fn s).
Proof.
  intros [Hlo Hhi].
  do 48 (destruct i as [|i]; [first [lia | vm_compute; eauto] | ]).
  lia.
Qed.

End VectorFacts.

Section VectorClaims.

Import Link Startup.

(** C1, as stated, fails: slot 4 of the table of the linked firmware is
    neither slot 0 nor slot 1, yet it holds the null entry and no code
    at all. *)
Lemma C1_reserved_slot_is_null :
  link Transmitter.defs = Some (resolve Transmitter.defs) ∧
  image (resolve Transmitter.defs) !! 4%nat = Some SlotNull ∧
  ¬ ∃ c, image (resolve Transmitter.defs) !! 4%nat = Some (SlotCode c).
Proof. repeat split. intros [c Hc]. discriminate Hc. Qed.

(** C1, amended: in every image that links, a slot other than slot 0,
    slot 1 and the fifteen reserved slots (4-10, 12, 13, 42-47) holds the
    application's handler for its symbol when the application defines
    one, and the Default Trap otherwise; the reserved slots hold the
    null entry. *)
Theorem C1_slots_bound_or_reserved app r i :
  link app = Some r →
  (2 ≤ i < length vector)%nat →
  if decide (i ∈ reserved)
  then image r !! i = Some SlotNull
  else ∃ s, vector !! i = Some (Fn s) ∧
            image r !! i =
              Some (SlotCode (if decide (s ∈ app)
                              then App s else Here Sym.defaultHandler)).
Proof.
  intros Hl Hi. apply link_Some in Hl as ->.
  rewrite vector_length in Hi.
  pose proof (vector_shape i Hi) as Hs.
  destruct (decide (i ∈ reserved)).
  - by rewrite image_lookup, Hs.
  - destruct Hs as [s Hs]. exists s. split; [done|].
    rewrite image_lookup, Hs. simpl. f_equal. f_equal.
    apply resolve_weak. apply (vector_handlers_weak i); [done | lia].
Qed.

Lemma C1_slots_bound_or_reserved_witness :
  ∃ s, vector !! 29%nat = Some (Fn s) ∧
       image (resolve Transmitter.defs) !! 29%nat =
         Some (SlotCode (if decide (s ∈ Transmitter.defs)
                         then App s else Here Sym.defaultHandler)).
Proof.
  apply (C1_slots_bound_or_reserved Transmitter.defs
           (resolve Transmitter.defs) 29%nat).
  - reflexivity.
  - simpl. lia.
Defined.

(** C2: in every image that links, whatever handlers the application
    adds or removes, slot 0 holds the stack-top value [&_sstack], which is
    not a function, and slot 1 holds [resetHandler] as [startup.c]
    defines it. *)
Theorem C2_stack_top_and_reset app r :
  link app = Some r →
  vector !! 0%nat = Some StackTop ∧
  image r !! 0%nat = Some SlotStack ∧
  vector !! 1%nat = Some (Fn Sym.resetHandler) ∧
  image r !! 1%nat = Some (SlotCode (Here Sym.resetHandler)).
Proof. intros Hl. apply link_Some in Hl as ->. by repeat split. Qed.

Lemma C2_stack_top_and_reset_witness :
  vector !! 0%nat = Some StackTop ∧
  image (resolve Transmitter.defs) !! 0%nat = Some SlotStack ∧
  vector !! 1%nat = Some (Fn Sym.resetHandler) ∧
  image (resolve Transmitter.defs) !! 1%nat =
    Some (SlotCode (Here Sym.resetHandler)).
Proof.
  apply (C2_stack_top_and_reset Transmitter.defs). reflexivity.
Defined.

(** C4: in every image that links, an interrupt slot (any slot naming a
    handler symbol other than the reset handler) whose symbol the
    application does not define holds the Default Trap, and one whose
    symbol the application defines exactly once holds that definition;
    the Default Trap of every unbound slot is the one function
    [defaultHandler] of [startup.c], the code its own symbol is bound
    to. *)
Theorem C4_resolution_policy app r i s :
  link app = Some r →
  vector !! i = Some (Fn s) → i ≠ 1%nat →
  (defs_in app s = 0%nat →
     image r !! i = Some (SlotCode (Here Sym.defaultHandler))) ∧
  (defs_in app s = 1%nat → image r !! i = Some (SlotCode (App s))) ∧
  r Sym.defaultHandler = Here Sym.defaultHandler.
Proof.
  intros Hl Hi Hne. apply link_Some in Hl as ->.
  pose proof (vector_handlers_weak i s Hi Hne) as Hw.
  rewrite image_lookup, Hi. simpl.
  rewrite (resolve_weak app s _ Hw).
  split; [|split; [|done]]; intros Hn.
  - apply defs_in_zero in Hn. by rewrite decide_False.
  - rewrite decide_True; [done|]. apply defs_in_pos. lia.
Qed.

Lemma C4_resolution_policy_witness :
  (defs_in Transmitter.defs Sym.ioIrqBank0 = 0%nat →
     image (resolve Transmitter.defs) !! 29%nat =
       Some (SlotCode (Here Sym.defaultHandler))) ∧
  (defs_in Transmitter.defs Sym.ioIrqBank0 = 1%nat →
     image (resolve Transmitter.defs) !! 29%nat =
       Some (SlotCode (App Sym.ioIrqBank0))) ∧
  resolve Transmitter.defs Sym.defaultHandler = Here Sym.defaultHandler.
Proof.
  apply (C4_resolution_policy Transmitter.defs (resolve Transmitter.defs)
           29%nat Sym.ioIrqBank0).
  - reflexivity.
  - reflexivity.
  - lia.
Defined.

(** C8: the table of [startup.c] is, entry by entry and in length, the
    published layout: the sixteen ARMv6-M exception vectors followed by
    the thirty-two RP2040 interrupt vectors, forty-eight entries. *)
Theorem C8_vector_matches_published_layout :
  vector = Reference.layout ∧
  length vector = 48%nat ∧
  ∀ i, (i < 48)%nat →
       vector !! i =
         Some (if decide (i < 16)%nat
               then Reference.armv6m_exception i
               else Reference.rp2040_irq (i - 16)).
Proof.
  split; [reflexivity | split; [reflexivity | ]].
  intros i Hi.
  do 48 (destruct i as [|i]; [reflexivity | ]). lia.
Qed.

End VectorClaims.

(** ** Loops *)

Section ExecFacts.

Local Open Scope exec_scope.

Lemma repeat_app_cons {A} (x : A) n l :
  repeat x n ++ x :: l = x :: repeat x n ++ l.
Proof. induction n as [|n IH]; simpl; [done | by rewrite IH]. Qed.

(** [while (true);] uses up any fuel and leaves the machine alone. *)
Lemma while_true_skip fuel m :
  while fuel (ret true) (ret tt) m = (OutOfFuel, m).
Proof. induction fuel as [|fuel IH]; simpl; [done | apply IH]. Qed.

(** [while (true) { wfi }] uses up any fuel, one [wfi] per iteration. *)
Lemma while_true_wfi fuel m :
  while fuel (ret true) wfi m =
    (OutOfFuel, Machine (dev m) (repeat EvWfi fuel ++ log m)).
Proof.
  revert m. induction fuel as [|fuel IH]; intros m; simpl.
  - by destruct m.
  - unfold bind at 1. simpl. unfold bind at 1. simpl.
    rewrite IH. simpl. by rewrite repeat_app_cons.
Qed.

(** A counting loop over [nop] with enough fuel runs to its bound. *)
Lemma for_lt_nop fuel i to m :
  0 ≤ i ≤ to → to < 2 ^ 32 → (Z.to_nat (to - i) < fuel)%nat →
  for_lt fuel (λ i, (i + 1) mod 2 ^ 32) i to nop m =
    (Done tt, Machine (dev m) (repeat EvNop (Z.to_nat (to - i)) ++ log m)).
Proof.
  revert i m. induction fuel as [|fuel IH]; intros i m Hi Hto Hfuel; [lia|].
  simpl. destruct (Z.ltb_spec i to) as [Hlt|Hge].
  - unfold bind, nop, emit. simpl.
    rewrite Z.mod_small by lia.
    rewrite IH by lia. simpl.
    rewrite repeat_app_cons.
    replace (Z.to_nat (to - i)) with (S (Z.to_nat (to - (i + 1)))) by lia.
    done.
  - replace (to - i) with 0 by lia. by destruct m.
Qed.

Lemma reverse_cons_rev {A} (x : A) l : rev (x :: l) = rev l ++ [x].
Proof. reflexivity. Qed.

Lemma delay_spec count m :
  0 ≤ count < 2 ^ 32 →
  Transmitter.delay count m =
    (Done tt, Machine (dev m) (repeat EvNop (Z.to_nat count) ++ log m)).
Proof.
  intros Hc. unfold Transmitter.delay.
  rewrite for_lt_nop by lia. by rewrite Z.sub_0_r.
Qed.

(** Testing a word against the mask [2^k] tests bit [k]. *)
Lemma land_pow2_testbit x k :
  0 ≤ k → (Z.land x (2 ^ k) =? 0) = negb (Z.testbit x k).
Proof.
  intros Hk. destruct (Z.testbit x k) eqn:Hb; simpl.
  - apply Z.eqb_neq. intros H0.
    assert (Z.testbit (Z.land x (2 ^ k)) k = false) as Hf
      by (rewrite H0; apply Z.bits_0).
    rewrite Z.land_spec, Hb, Z.pow2_bits_true in Hf by done. done.
  - apply Z.eqb_eq. apply Z.bits_inj'. intros n Hn.
    rewrite Z.land_spec, Z.bits_0, Z.pow2_bits_eqb by done.
    destruct (Z.eqb_spec k n) as [->|]; [by rewrite Hb | by rewrite andb_false_r].
Qed.

End ExecFacts.

(** ** The boot sequencer and the default trap *)

Section StartupClaims.

Import Obs Startup.

(** C3, as stated, fails: after an entry point that returns, three
    rounds of the reset handler's loop have executed no wait-for-interrupt
    instruction; the loop is a busy spin, not a low-power wait. *)
Lemma C3_halt_loop_is_busy_spin :
  returning_main 3%nat (Machine (λ _, 0) [EvCall Sym.main])
    = (Done 0, Machine (λ _, 0) [EvCall Sym.main]) ∧
  resetHandler returning_main 3 (boot (λ _, 0))
    = (OutOfFuel, Machine (λ _, 0) [EvCall Sym.main]) ∧
  existsb is_wfi
    (trace (resetHandler returning_main 3 (boot (λ _, 0))).2) = false.
Proof. by repeat split. Qed.

(** C3, amended: the reset handler calls exactly one external function,
    [main], with no argument, and never returns.  Its run is the call
    followed by the run of [main]; if [main] returns, the handler loops
    in an empty [while (true)], a busy spin that executes no instruction
    of its own, in particular no wait-for-interrupt, and accesses no
    register: however long it runs, the machine is as [main] left it. *)
Theorem C3_reset_calls_main_then_spins (main : nat → M Z) fuel d :
  (resetHandler main fuel (boot d)).1 = OutOfFuel ∧
  (resetHandler main fuel (boot d)).2
    = (main fuel (Machine d [EvCall Sym.main])).2.
Proof.
  unfold resetHandler, bind, emit, boot. simpl.
  destruct (main fuel _) as [[r|] m1]; simpl; [|done].
  by rewrite while_true_skip.
Qed.

(** C7: the default handler never returns: whatever the fuel, it is
    still in its loop when the fuel is spent.  Every round of the loop
    executes one wait-for-interrupt instruction and nothing else, and
    the device is left alone. *)
Theorem C7_default_trap_waits fuel d :
  ∃ m', defaultHandler fuel (boot d) = (OutOfFuel, m') ∧
        trace m' = repeat EvWfi fuel ∧
        dev m' = d.
Proof.
  eexists. split; [apply while_true_wfi|].
  unfold trace. simpl. by rewrite app_nil_r, rev_repeat.
Qed.

End StartupClaims.

(** ** The edge handler *)

Section HandlerFacts.

Import Obs.
Local Open Scope exec_scope.

(** The word both output stores write: bits [LED_PIN] and
    [SPEAKER_PIN]. *)
Lemma outputs_mask :
  Z.lor (Z.shiftl 1 Transmitter.LED_PIN) (Z.shiftl 1 Transmitter.SPEAKER_PIN)
  = 0x2200000.
Proof. reflexivity. Qed.

(** The two runs of [ioIrqBank0]. *)
Lemma ioIrqBank0_run m :
  Transmitter.ioIrqBank0 m =
    let v := read (dev m) (io_proc0_ints 2) in
    if pending (dev m)
    then (Done tt,
          Machine
            (write (write (write (dev m) sio_gpio_out_set 0x2200000)
                      sio_gpio_out_clr 0x2200000) (io_intr 2) 0xF)
            (EvStore (io_intr 2) 0xF :: EvStore sio_gpio_out_clr 0x2200000
             :: repeat EvNop (Z.to_nat 100000)
             ++ EvStore sio_gpio_out_set 0x2200000
             :: EvLoad (io_proc0_ints 2) v :: log m))
    else (Done tt, Machine (dev m) (EvLoad (io_proc0_ints 2) v :: log m)).
Proof.
  unfold Transmitter.ioIrqBank0, pending.
  change button_word with 2%nat. change button_bit with 3.
  change (Transmitter.idx (Transmitter.BUTTON_PIN ÷ 8)) with 2%nat.
  change (Z.shiftl Transmitter.GPIO_INT_EDGE_HIGH
            (4 * Z.rem Transmitter.BUTTON_PIN 8)) with (2 ^ 3).
  change (Z.shiftl 15 (4 * Z.rem Transmitter.BUTTON_PIN 8)) with 15.
  rewrite outputs_mask.
  unfold bind at 1. unfold load. cbv zeta.
  rewrite land_pow2_testbit by lia. rewrite negb_involutive.
  destruct (Z.testbit (read (dev m) (io_proc0_ints 2)) 3).
  - unfold bind, store. cbv beta iota zeta.
    rewrite delay_spec by lia. reflexivity.
  - reflexivity.
Qed.

(** The device the handler leaves behind when its source is pending. *)
Lemma handler_device_frame d r :
  r ≠ io_intr 2 → r ≠ sio_gpio_out →
  write (write (write d sio_gpio_out_set 0x2200000)
           sio_gpio_out_clr 0x2200000) (io_intr 2) 0xF r = d r.
Proof.
  intros H1 H2. unfold write.
  rewrite !fn_lookup_insert_ne by done. done.
Qed.

Lemma handler_device_intr d :
  write (write (write d sio_gpio_out_set 0x2200000)
           sio_gpio_out_clr 0x2200000) (io_intr 2) 0xF (io_intr 2)
  = Z.ldiff (d (io_intr 2)) 0xc.
Proof.
  unfold write. rewrite fn_lookup_insert.
  rewrite !fn_lookup_insert_ne by done. done.
Qed.

Lemma handler_device_out d :
  write (write (write d sio_gpio_out_set 0x2200000)
           sio_gpio_out_clr 0x2200000) (io_intr 2) 0xF sio_gpio_out
  = Z.ldiff (Z.lor (d sio_gpio_out) 0x2200000) 0x2200000.
Proof.
  unfold write. rewrite fn_lookup_insert_ne by done.
  by rewrite !fn_lookup_insert.
Qed.

(** The trace of the handler. *)
Lemma ioIrqBank0_boot d :
  ∃ m', Transmitter.ioIrqBank0 (boot d) = (Done tt, m') ∧
        trace m' = handler_events d.
Proof.
  pose proof (ioIrqBank0_run (boot d)) as Hrun. cbv zeta in Hrun.
  change (dev (boot d)) with d in Hrun.
  change (log (boot d)) with (@nil event) in Hrun.
  unfold handler_events.
  destruct (pending d); (eexists; split; [exact Hrun|]).
  - unfold trace, log.
    rewrite !reverse_cons_rev, rev_app_distr, rev_repeat.
    cbn [rev app]. rewrite <- !app_assoc. cbn [app]. reflexivity.
  - reflexivity.
Qed.

End HandlerFacts.

Section HandlerClaims.

Import Obs.




(** C6: the handler first reads the interrupt status word of its own
    pin and tests the rising-edge bit of that pin.  When the bit is set
    it drives the LED and the speaker high, executes the hundred
    thousand [nop] of [delay], drives both low, clears the interrupt
    and returns; when the bit is clear it returns after the read, with
    no store and the device as it was.  So the handler stores if and only
    if its source is pending. *)
Theorem C6_handler_acts_iff_pending d :
  ∃ m', Transmitter.ioIrqBank0 (boot d) = (Done tt, m') ∧
    existsb is_store (trace m') = pending d ∧
    if pending d
    then trace m' =
           [ EvLoad (io_proc0_ints button_word)
               (read d (io_proc0_ints button_word));
             EvStore sio_gpio_out_set
               (Z.lor (Z.shiftl 1 Transmitter.LED_PIN)
                  (Z.shiftl 1 Transmitter.SPEAKER_PIN)) ]
           ++ repeat EvNop (Z.to_nat 100000)
           ++ [ EvStore sio_gpio_out_clr
                  (Z.lor (Z.shiftl 1 Transmitter.LED_PIN)
                     (Z.shiftl 1 Transmitter.SPEAKER_PIN));
                EvStore (io_intr button_word) 0xF ]
         ∧ outputs_on
             (write d sio_gpio_out_set
                (Z.lor (Z.shiftl 1 Transmitter.LED_PIN)
                   (Z.shiftl 1 Transmitter.SPEAKER_PIN))) = true
         ∧ outputs_off (dev m') = true
    else trace m' =
           [ EvLoad (io_proc0_ints button_word)
               (read d (io_proc0_ints button_word)) ]
         ∧ dev m' = d.
Proof.
  pose proof (ioIrqBank0_run (boot d)) as Hrun. cbv zeta in Hrun.
  change (dev (boot d)) with d in Hrun. change (log (boot d)) with (@nil event) in Hrun.
  rewrite outputs_mask. change button_word with 2%nat.
  destruct (pending d); (eexists; split; [exact Hrun|]).
  - assert (∀ dv, trace
              (Machine dv
                 (EvStore (io_intr 2) 0xF :: EvStore sio_gpio_out_clr 0x2200000
                  :: repeat EvNop (Z.to_nat 100000)
                  ++ [ EvStore sio_gpio_out_set 0x2200000;
                       EvLoad (io_proc0_ints 2) (read d (io_proc0_ints 2)) ]))
            = [ EvLoad (io_proc0_ints 2) (read d (io_proc0_ints 2));
                EvStore sio_gpio_out_set 0x2200000 ]
              ++ repeat EvNop (Z.to_nat 100000)
              ++ [ EvStore sio_gpio_out_clr 0x2200000;
                   EvStore (io_intr 2) 0xF ]) as Htr.
    { intros dv. unfold trace, log.
      rewrite !reverse_cons_rev, rev_app_distr, rev_repeat.
      cbn [rev app]. by rewrite <- !app_assoc. }
    rewrite Htr. split; [reflexivity|]. split; [reflexivity|].
    unfold outputs_on, outputs_off, dev.
    rewrite handler_device_out. unfold write.
    rewrite fn_lookup_insert.
    rewrite !Z.ldiff_spec, !Z.lor_spec.
    change (Z.testbit 35651584 Transmitter.LED_PIN) with true.
    change (Z.testbit 35651584 Transmitter.SPEAKER_PIN) with true.
    by rewrite !orb_true_r, !andb_false_r.
  - by repeat split.
Qed.

End HandlerClaims.

(** ** The application entry point *)

Section MainFacts.

Import Obs.
Local Open Scope exec_scope.

(** A store changes at most the register it acts upon. *)
Lemma write_frame d r v r' : r' ≠ target r → write d r v r' = d r'.
Proof.
  intros Hne. destruct r; simpl in *; try done;
    by rewrite fn_lookup_insert_ne.
Qed.

Lemma reset_poll fuel m :
  Z.land (read (dev m) RESETS_RESET) (Z.shiftl 1 5) = 0 →
  while (S fuel)
    (v ← load RESETS_RESET; ret (negb (Z.land v (Z.shiftl 1 5) =? 0)))
    (ret tt) m
  = (Done tt,
     Machine (dev m) (EvLoad RESETS_RESET (read (dev m) RESETS_RESET) :: log m)).
Proof.
  intros H. cbn [while]. unfold Exec.bind, load, ret. cbv zeta.
  by rewrite H.
Qed.

Lemma reset_bit_cleared v :
  Z.land (Z.land v (Transmitter.not32 (Z.shiftl 1 5))) (Z.shiftl 1 5) = 0.
Proof. by rewrite <- Z.land_assoc, Z.land_0_r. Qed.

Lemma read_write_reset d v :
  read (write d RESETS_RESET v) RESETS_RESET = v.
Proof. unfold read, write. by rewrite fn_lookup_insert. Qed.

Lemma main_setup_run fuel d :
  Transmitter.main_setup (S fuel) (boot d) =
    (Done tt, Machine (replay (setup_events d) d) (rev (setup_events d))).
Proof.
  unfold Transmitter.main_setup.
  unfold Exec.bind at 1. unfold load at 1. cbv beta iota zeta.
  unfold Exec.bind at 1. unfold store at 1. cbv beta iota zeta.
  unfold Exec.bind at 1. rewrite reset_poll.
  2:{ unfold dev, boot, write, read. rewrite fn_lookup_insert.
      apply reset_bit_cleared. }
  do 8 (unfold Exec.bind at 1; unfold store at 1; cbv beta iota zeta).
  unfold Exec.bind at 1. unfold load at 1. cbv beta iota zeta.
  unfold Exec.bind at 1. unfold store at 1. cbv beta iota zeta.
  unfold store. cbn [dev log boot].
  change (Transmitter.idx Transmitter.BUTTON_PIN) with 16%nat.
  change (Transmitter.idx Transmitter.LED_PIN) with 25%nat.
  change (Transmitter.idx Transmitter.SPEAKER_PIN) with 21%nat.
  change (Transmitter.idx (Transmitter.BUTTON_PIN ÷ 8)) with 2%nat.
  rewrite read_write_reset.
  cbn [read]. rewrite !write_frame by (cbn; done).
  reflexivity.
Qed.

Lemma rev_blink_events l :
  rev blink_events ++ l =
    repeat EvNop (Z.to_nat 100000)
    ++ EvStore sio_gpio_out_clr 0x2200000
    :: repeat EvNop (Z.to_nat 100000)
    ++ EvStore sio_gpio_out_set 0x2200000 :: l.
Proof.
  unfold blink_events.
  rewrite reverse_cons_rev, rev_app_distr, reverse_cons_rev, !rev_repeat.
  rewrite <- !app_assoc. cbn [app]. reflexivity.
Qed.

(** One round of the startup test pattern (lines 137-141). *)
Lemma blink_run m :
  Exec.bind (store sio_gpio_out_set 0x2200000)
    (λ _, Exec.bind (Transmitter.delay 100000)
       (λ _, Exec.bind (store sio_gpio_out_clr 0x2200000)
          (λ _, Transmitter.delay 100000))) m
  = (Done tt,
     Machine (write (write (dev m) sio_gpio_out_set 0x2200000)
                sio_gpio_out_clr 0x2200000)
       (rev blink_events ++ log m)).
Proof.
  rewrite rev_blink_events.
  unfold Exec.bind at 1. unfold store at 1. cbv beta iota zeta.
  unfold Exec.bind at 1. rewrite delay_spec by lia.
  unfold Exec.bind at 1. unfold store at 1. cbv beta iota zeta.
  rewrite delay_spec by lia. cbn [dev log]. reflexivity.
Qed.

Lemma for_lt_step fuel next i to body :
  i < to →
  for_lt (S fuel) next i to body
  = Exec.bind body (λ _, for_lt fuel next (next i) to body).
Proof. intros H. simpl. by destruct (Z.ltb_spec i to); [|lia]. Qed.

Lemma for_lt_done fuel next i to body :
  to ≤ i → for_lt (S fuel) next i to body = ret tt.
Proof. intros H. simpl. by destruct (Z.ltb_spec i to); [lia|]. Qed.

Lemma rev_pattern_events l :
  rev pattern_events ++ l =
    EvStore sio_gpio_out_clr 0x2000000
    :: repeat EvNop (Z.to_nat 500000)
    ++ EvStore sio_gpio_out_set 0x2000000
    :: rev blink_events ++ rev blink_events ++ rev blink_events ++ l.
Proof.
  unfold pattern_events.
  rewrite !rev_app_distr, reverse_cons_rev, rev_app_distr, rev_repeat.
  cbn [rev app]. rewrite <- !app_assoc. cbn [app]. reflexivity.
Qed.

(** The startup test pattern and the debug flash (lines 135-147). *)
Lemma main_pattern_run m :
  ∃ d', Transmitter.main_pattern m
        = (Done tt, Machine d' (rev pattern_events ++ log m)).
Proof.
  unfold Transmitter.main_pattern.
  rewrite outputs_mask, rev_pattern_events.
  change (Z.shiftl 1 Transmitter.LED_PIN) with 0x2000000.
  rewrite for_lt_step by lia. cbv beta.
  rewrite for_lt_step by lia. cbv beta.
  rewrite for_lt_step by lia. cbv beta.
  rewrite for_lt_done by lia.
  unfold Exec.bind at 1. unfold Exec.bind at 1.
  rewrite blink_run. cbv beta iota.
  unfold Exec.bind at 1. rewrite blink_run. cbv beta iota.
  unfold Exec.bind at 1. rewrite blink_run. cbv beta iota.
  unfold ret at 1. cbv beta iota.
  unfold Exec.bind at 1. unfold store at 1. cbv beta iota.
  unfold Exec.bind at 1. rewrite delay_spec by lia. cbv beta iota.
  unfold store. cbn [dev log].
  eexists. reflexivity.
Qed.

(** [main]: setup, pattern, then the idle loop for as long as the fuel
    lasts. *)
Lemma main_run fuel d :
  ∃ m, Transmitter.main (S fuel) (boot d) = (OutOfFuel, m) ∧
       trace m = setup_events d ++ pattern_events ++ repeat EvWfi (S fuel).
Proof.
  unfold Transmitter.main.
  unfold Exec.bind at 1. rewrite main_setup_run.
  unfold Exec.bind at 1.
  destruct (main_pattern_run
              (Machine (replay (setup_events d) d) (rev (setup_events d))))
    as [d' ->].
  unfold Exec.bind at 1. rewrite while_true_wfi.
  eexists. split; [reflexivity|].
  unfold trace, log.
  rewrite !rev_app_distr, !rev_involutive, rev_repeat.
  by rewrite <- app_assoc.
Qed.

(** [main] never returns: without a bound on the fuel it is either
    polling the reset register or idling. *)
Lemma main_never_returns fuel m : (Transmitter.main fuel m).1 = OutOfFuel.
Proof.
  unfold Transmitter.main. unfold Exec.bind at 1.
  destruct (Transmitter.main_setup fuel m) as [[[]|] m1]; [|done].
  unfold Exec.bind at 1.
  destruct (main_pattern_run m1) as [d' ->].
  unfold Exec.bind at 1. by rewrite while_true_wfi.
Qed.

(** *** Read-modify-write pairs of a trace *)

Lemma rmw_regs_no_load t :
  Forall (λ e, is_load e = false) t → rmw_regs t = [].
Proof.
  induction 1 as [|e t He _ IH]; [done|].
  destruct e; try done; simpl in *; by destruct t.
Qed.

Lemma rmw_regs_app_no_load t1 e t2 :
  is_load e = false → Forall (λ e, is_load e = false) t2 →
  rmw_regs (t1 ++ e :: t2) = rmw_regs (t1 ++ [e]).
Proof.
  intros He Ht2. induction t1 as [|a t1 IH].
  - simpl. rewrite (rmw_regs_no_load t2 Ht2). by destruct e.
  - change ((a :: t1) ++ e :: t2) with (a :: (t1 ++ e :: t2)).
    change ((a :: t1) ++ [e]) with (a :: (t1 ++ [e])).
    cbn [rmw_regs]. rewrite IH.
    destruct a; try done. by destruct t1 as [|[] t1].
Qed.

Lemma rmw_regs_load_store_ne r v r' w t :
  r ≠ r' → rmw_regs (EvLoad r v :: EvStore r' w :: t) = rmw_regs t.
Proof. intros Hne. simpl. by destruct (decide (r = r')). Qed.

Lemma Forall_repeat {A} (P : A → Prop) x n : P x → Forall P (repeat x n).
Proof. intros Hx. induction n; simpl; by constructor. Qed.

(** A property of the five kinds of event of the test pattern holds of
    all its events. *)
Lemma Forall_pattern_events (P : event → Prop) :
  P (EvStore sio_gpio_out_set 0x2200000) →
  P (EvStore sio_gpio_out_clr 0x2200000) →
  P (EvStore sio_gpio_out_set 0x2000000) →
  P (EvStore sio_gpio_out_clr 0x2000000) →
  P EvNop →
  Forall P pattern_events.
Proof.
  intros H1 H2 H3 H4 H5.
  assert (Forall P blink_events) as Hb.
  { unfold blink_events. constructor; [exact H1|].
    apply Forall_app. split; [by apply Forall_repeat|].
    constructor; [exact H2 | by apply Forall_repeat]. }
  unfold pattern_events.
  do 3 (apply Forall_app; split; [exact Hb|]).
  constructor; [exact H3|].
  apply Forall_app. split; [by apply Forall_repeat|].
  constructor; [exact H4 | constructor].
Qed.

(** Likewise for the events of the edge handler. *)
Lemma Forall_handler_events (P : event → Prop) d :
  P (EvLoad (io_proc0_ints 2) (read d (io_proc0_ints 2))) →
  P (EvStore sio_gpio_out_set 0x2200000) →
  P (EvStore sio_gpio_out_clr 0x2200000) →
  P (EvStore (io_intr 2) 0xF) →
  P EvNop →
  Forall P (handler_events d).
Proof.
  intros H1 H2 H3 H4 H5. unfold handler_events.
  constructor; [exact H1|]. destruct (pending d); [|constructor].
  constructor; [exact H2|].
  apply Forall_app. split; [by apply Forall_repeat|].
  constructor; [exact H3|]. constructor; [exact H4 | constructor].
Qed.

Lemma rmw_regs_handler d : rmw_regs (handler_events d) = [].
Proof.
  unfold handler_events. destruct (pending d); [|reflexivity].
  rewrite rmw_regs_load_store_ne by done.
  apply rmw_regs_no_load.
  apply Forall_app. split; [by apply Forall_repeat|].
  constructor; [reflexivity|]. constructor; [reflexivity | constructor].
Qed.

Lemma setup_events_split d :
  setup_events d =
    firstn 13 (setup_events d)
    ++ [EvStore NVIC_ISER (Z.shiftl 1 Transmitter.IO_BANK0_IRQ)].
Proof. reflexivity. Qed.

(** The device after the setup: the interrupt set-enable register has
    gained the bit written by the last store. *)
Lemma setup_device_iser d :
  replay (setup_events d) d NVIC_ISER = Z.lor (d NVIC_ISER) 0x2000.
Proof.
  unfold replay, setup_events. cbn [fold_left].
  unfold write at 1. rewrite fn_lookup_insert.
  rewrite !write_frame by (cbn; done). reflexivity.
Qed.

End MainFacts.

Section MainClaims.

Import Obs Link Startup.

(** C9, as stated, fails.  Started with every peripheral in reset,
    [main] takes IO bank 0 out of reset with a plain read-modify-write:
    it loads [RESETS_RESET] and stores the value loaded with bit 5
    cleared, and it later updates [proc0_inte[2]] the same way, although
    both registers have atomic set and clear aliases. *)
Lemma C9_main_uses_plain_rmw :
  firstn 2 (trace (Transmitter.main_setup 1 (boot in_reset)).2)
    = [EvLoad RESETS_RESET 0x1ffffff; EvStore RESETS_RESET 0x1ffffdf] ∧
  rmw_regs (trace (Transmitter.main_setup 1 (boot in_reset)).2)
    = [RESETS_RESET; io_proc0_inte button_word] ∧
  atomic_alias RESETS_RESET = true ∧
  atomic_alias (io_proc0_inte button_word) = true.
Proof.
  rewrite main_setup_run. unfold snd, trace, log.
  rewrite rev_involutive. by repeat split.
Qed.

(** C9, amended: [main] performs exactly two plain read-modify-writes,
    on [RESETS_RESET] and on [proc0_inte[2]], and both come before the
    store to [NVIC_ISER] that enables the interrupt.  After that store
    [main] loads nothing and every store it makes goes to a set or clear
    register of the SIO.  The edge handler performs no read-modify-write,
    never accesses the two registers [main] updates that way, and stores
    only to the set and clear registers of the SIO and to the
    write-one-to-clear raw interrupt word.  Both registers [main] updates
    by read-modify-write have atomic aliases. *)
Theorem C9_plain_rmw_only_before_enable fuel d dh :
  ∃ m mh pre post,
    Transmitter.main (S fuel) (boot d) = (OutOfFuel, m) ∧
    Transmitter.ioIrqBank0 (boot dh) = (Done tt, mh) ∧
    trace m
      = pre ++ EvStore NVIC_ISER (Z.shiftl 1 Transmitter.IO_BANK0_IRQ) :: post ∧
    rmw_regs (trace m) = [RESETS_RESET; io_proc0_inte button_word] ∧
    rmw_regs pre = [RESETS_RESET; io_proc0_inte button_word] ∧
    Forall (λ e, is_load e = false ∧ alias_store e = true) post ∧
    rmw_regs (trace mh) = [] ∧
    Forall (λ e, alias_store e = true ∧
                 reg_of e ≠ Some RESETS_RESET ∧
                 reg_of e ≠ Some (io_proc0_inte button_word)) (trace mh) ∧
    atomic_alias RESETS_RESET = true ∧
    atomic_alias (io_proc0_inte button_word) = true.
Proof.
  destruct (main_run fuel d) as (m & Hm & Htm).
  destruct (ioIrqBank0_boot dh) as (mh & Hmh & Htmh).
  exists m, mh, (firstn 13 (setup_events d)),
    (pattern_events ++ repeat EvWfi (S fuel)).
  assert (Forall (λ e, is_load e = false ∧ alias_store e = true)
            (pattern_events ++ repeat EvWfi (S fuel))) as Hpost.
  { apply Forall_app. split.
    - by apply Forall_pattern_events.
    - by apply Forall_repeat. }
  assert (trace m
          = firstn 13 (setup_events d)
            ++ EvStore NVIC_ISER (Z.shiftl 1 Transmitter.IO_BANK0_IRQ)
            :: pattern_events ++ repeat EvWfi (S fuel)) as Htm'.
  { rewrite Htm. rewrite (setup_events_split d) at 1.
    rewrite <- app_assoc. cbn [app]. reflexivity. }
  rewrite Htm', Htmh.
  split; [exact Hm|]. split; [exact Hmh|]. split; [reflexivity|].
  split.
  { rewrite rmw_regs_app_no_load; [reflexivity | reflexivity | ].
    eapply List.Forall_impl; [|exact Hpost]. by intros e [? _]. }
  split; [reflexivity|]. split; [exact Hpost|].
  split; [apply rmw_regs_handler|].
  split; [by apply Forall_handler_events | by split].
Qed.

End MainClaims.

(** * Further properties of the code *)

(** ** Effect of a store on the register it acts upon *)

Section WriteFacts.

Lemma write_plain d r v :
  target r = r →
  match r with
  | sio_cpuid | sio_gpio_in | sio_gpio_hi_in | sio_unused
  | io_gpio_status _ | io_proc0_ints _ | io_intr _ | NVIC_ISER => False
  | _ => True
  end →
  write d r v r = v.
Proof.
  intros Ht Hp. destruct r; simpl in *; try done; by rewrite fn_lookup_insert.
Qed.

Lemma write_oe_set d v :
  write d sio_gpio_oe_set v sio_gpio_oe = Z.lor (d sio_gpio_oe) v.
Proof. unfold write. by rewrite fn_lookup_insert. Qed.

Lemma write_oe_clr d v :
  write d sio_gpio_oe_clr v sio_gpio_oe = Z.ldiff (d sio_gpio_oe) v.
Proof. unfold write. by rewrite fn_lookup_insert. Qed.

Lemma write_out_set d v :
  write d sio_gpio_out_set v sio_gpio_out = Z.lor (d sio_gpio_out) v.
Proof. unfold write. by rewrite fn_lookup_insert. Qed.

Lemma write_out_clr d v :
  write d sio_gpio_out_clr v sio_gpio_out = Z.ldiff (d sio_gpio_out) v.
Proof. unfold write. by rewrite fn_lookup_insert. Qed.

Lemma write_intr d k v :
  write d (io_intr k) v (io_intr k)
  = Z.ldiff (d (io_intr k)) (Z.land v edge_bits).
Proof. unfold write. by rewrite fn_lookup_insert. Qed.

Lemma write_iser d v : write d NVIC_ISER v NVIC_ISER = Z.lor (d NVIC_ISER) v.
Proof. unfold write. by rewrite fn_lookup_insert. Qed.

(** Bits of the masks the firmware writes. *)
Lemma testbit_pow2 k b : 0 ≤ k → Z.testbit (2 ^ k) b = bool_decide (b = k).
Proof.
  intros Hk. rewrite Z.pow2_bits_eqb by done.
  destruct (Z.eqb_spec k b);
    [rewrite bool_decide_true by done | rewrite bool_decide_false by congruence];
    done.
Qed.

Lemma testbit_outputs_mask b :
  Z.testbit 0x2200000 b
  = bool_decide (b = Transmitter.SPEAKER_PIN) || bool_decide (b = Transmitter.LED_PIN).
Proof.
  change 0x2200000 with (Z.lor (2 ^ 21) (2 ^ 25)).
  by rewrite Z.lor_spec, !testbit_pow2.
Qed.

Lemma testbit_edge_mask b :
  Z.testbit 0xc b = bool_decide (b = 2) || bool_decide (b = 3).
Proof.
  change 0xc with (Z.lor (2 ^ 2) (2 ^ 3)).
  by rewrite Z.lor_spec, !testbit_pow2.
Qed.

End WriteFacts.

Ltac dev_lookup :=
  repeat first
    [ rewrite write_frame by (cbn; done)
    | rewrite write_oe_set | rewrite write_oe_clr
    | rewrite write_out_set | rewrite write_out_clr
    | rewrite write_intr | rewrite write_iser
    | rewrite write_plain by done ].

(** ** The delay loop and the edge handler *)

Section HandlerExtras.

Import Obs Effects.

(** The handler's run with the device it leaves. *)
Lemma ioIrqBank0_effect d :
  ∃ m, Transmitter.ioIrqBank0 (boot d) = (Done tt, m) ∧
       dev m = handler_device d ∧ trace m = handler_events d.
Proof.
  destruct (ioIrqBank0_boot d) as (m & Hm & Ht).
  exists m. split; [exact Hm|]. split; [|exact Ht].
  rewrite ioIrqBank0_run in Hm. cbv zeta in Hm.
  change (dev (boot d)) with d in Hm. unfold handler_device.
  destruct (pending d);
    apply (f_equal (λ x, dev x.2)) in Hm; symmetry; exact Hm.
Qed.

Lemma handler_device_bits_intr d b :
  0 ≤ b →
  Z.testbit (handler_device d (io_intr 2)) b
  = Z.testbit (d (io_intr 2)) b
    && negb (pending d && (bool_decide (b = 2) || bool_decide (b = 3))).
Proof.
  intros Hb. unfold handler_device. destruct (pending d).
  - rewrite handler_device_intr, Z.ldiff_spec by done.
    by rewrite testbit_edge_mask.
  - by rewrite andb_true_r.
Qed.

Lemma handler_device_bits_out d b :
  0 ≤ b →
  Z.testbit (handler_device d sio_gpio_out) b
  = Z.testbit (d sio_gpio_out) b
    && negb (pending d && (bool_decide (b = Transmitter.SPEAKER_PIN)
                           || bool_decide (b = Transmitter.LED_PIN))).
Proof.
  intros Hb. unfold handler_device. destruct (pending d).
  - rewrite handler_device_out, Z.ldiff_spec, Z.lor_spec, testbit_outputs_mask.
    destruct (Z.testbit _ b), (bool_decide _), (bool_decide _); done.
  - by rewrite andb_true_r.
Qed.

Lemma handler_device_other d r :
  r ≠ io_intr 2 → r ≠ sio_gpio_out → handler_device d r = d r.
Proof.
  intros H1 H2. unfold handler_device.
  destruct (pending d); [by apply handler_device_frame | done].
Qed.

(** After the handler the source reads as the force register has it. *)
Lemma handler_device_pending d : pending (handler_device d) = forced d.
Proof.
  unfold pending at 1, forced. change button_word with 2%nat.
  change button_bit with 3. cbn [read].
  rewrite (handler_device_other d (io_proc0_inte 2)) by done.
  rewrite (handler_device_other d (io_proc0_intf 2)) by done.
  rewrite Z.lor_spec, Z.land_spec, handler_device_bits_intr by lia.
  destruct (pending d) eqn:Hp; cbn [andb negb orb bool_decide].
  - rewrite (bool_decide_true (3 = 3)) by done.
    by rewrite orb_true_r, andb_false_r.
  - unfold pending in Hp. change button_word with 2%nat in Hp.
    change button_bit with 3 in Hp. cbn [read] in Hp.
    rewrite Z.lor_spec, Z.land_spec in Hp. revert Hp.
    destruct (Z.testbit (d (io_intr 2)) 3),
      (Z.testbit (d (io_proc0_inte 2)) 3),
      (Z.testbit (d (io_proc0_intf 2)) 3); done.
Qed.

(** X1: [delay count], for a count that fits the [uint32_t] parameter,
    returns after executing exactly [count] [nop] instructions, none for
    a zero count, and accesses no register. *)
Theorem X1_delay_executes_count_nops count d :
  0 ≤ count < 2 ^ 32 →
  ∃ m, Transmitter.delay count (boot d) = (Done tt, m) ∧
       trace m = repeat EvNop (Z.to_nat count) ∧
       dev m = d.
Proof.
  intros Hc. eexists. split; [by apply delay_spec|].
  unfold trace, boot, log, dev. by rewrite app_nil_r, rev_repeat.
Qed.

Lemma X1_delay_executes_count_nops_witness :
  ∃ m, Transmitter.delay 3 (boot (λ _, 0)) = (Done tt, m) ∧
       trace m = repeat EvNop (Z.to_nat 3) ∧
       dev m = (λ _, 0).
Proof. apply (X1_delay_executes_count_nops 3 (λ _, 0)). lia. Defined.


(** X3: the handler services an edge once.  When it has run for a pending
    source that is not forced, a second run right after it finds the
    source deasserted: it does the status load and nothing else, and the
    device stays as the first run left it. *)
Theorem X3_second_run_is_idle d :
  pending d = true → forced d = false →
  ∃ m1 m2,
    Transmitter.ioIrqBank0 (boot d) = (Done tt, m1) ∧
    existsb is_store (trace m1) = true ∧
    Transmitter.ioIrqBank0 (boot (dev m1)) = (Done tt, m2) ∧
    trace m2 = [EvLoad (io_proc0_ints button_word)
                  (read (dev m1) (io_proc0_ints button_word))] ∧
    dev m2 = dev m1.
Proof.
  intros Hp Hf.
  destruct (ioIrqBank0_effect d) as (m1 & Hm1 & Hd1 & Ht1).
  destruct (ioIrqBank0_effect (dev m1)) as (m2 & Hm2 & Hd2 & Ht2).
  exists m1, m2. split; [exact Hm1|]. split.
  { rewrite Ht1. unfold handler_events. rewrite Hp. reflexivity. }
  split; [exact Hm2|].
  assert (pending (dev m1) = false) as Hp1
    by (rewrite Hd1, handler_device_pending; done).
  rewrite Ht2, Hd2. unfold handler_events, handler_device.
  by rewrite Hp1.
Qed.

Lemma X3_second_run_is_idle_witness :
  ∃ m1 m2,
    Transmitter.ioIrqBank0 (boot both_edges_latched) = (Done tt, m1) ∧
    existsb is_store (trace m1) = true ∧
    Transmitter.ioIrqBank0 (boot (dev m1)) = (Done tt, m2) ∧
    trace m2 = [EvLoad (io_proc0_ints button_word)
                  (read (dev m1) (io_proc0_ints button_word))] ∧
    dev m2 = dev m1.
Proof. apply (X3_second_run_is_idle both_edges_latched); reflexivity. Defined.

(** X4: the handler cannot deassert a forced source.  With the rising
    edge of the button forced in the interrupt force register, the handler
    runs its full sequence of stores and the source still reads pending
    when it returns, so every re-entry acts again. *)
Theorem X4_forced_source_stays_pending d :
  forced d = true →
  pending d = true ∧
  ∃ m, Transmitter.ioIrqBank0 (boot d) = (Done tt, m) ∧
       existsb is_store (trace m) = true ∧
       pending (dev m) = true.
Proof.
  intros Hf.
  assert (pending d = true) as Hp.
  { unfold pending, forced in *. cbn [read].
    rewrite Z.lor_spec, Hf. apply orb_true_r. }
  split; [exact Hp|].
  destruct (ioIrqBank0_effect d) as (m & Hm & Hd & Ht).
  exists m. split; [exact Hm|]. split.
  - rewrite Ht. unfold handler_events. rewrite Hp. reflexivity.
  - by rewrite Hd, handler_device_pending.
Qed.

Lemma X4_forced_source_stays_pending_witness :
  pending forced_button = true ∧
  ∃ m, Transmitter.ioIrqBank0 (boot forced_button) = (Done tt, m) ∧
       existsb is_store (trace m) = true ∧
       pending (dev m) = true.
Proof. apply (X4_forced_source_stays_pending forced_button). reflexivity. Defined.

(** X13: what the handler does to the two outputs.  When it returns, the
    LED and the speaker are both low exactly when its source was pending
    or they were both low when it was entered; when the source was not
    pending the GPIO output register is as it was, so an output that was
    on stays on. *)
Theorem X13_handler_outputs_off_iff d :
  ∃ m, Transmitter.ioIrqBank0 (boot d) = (Done tt, m) ∧
       outputs_off (dev m) = pending d || outputs_off d ∧
       (if pending d then outputs_off (dev m) = true
        else dev m sio_gpio_out = d sio_gpio_out).
Proof.
  destruct (ioIrqBank0_effect d) as (m & Hm & Hd & _).
  exists m. split; [exact Hm|]. rewrite Hd.
  assert (outputs_off (handler_device d) = pending d || outputs_off d) as Ho.
  { unfold outputs_off. rewrite !handler_device_bits_out by done.
    rewrite (bool_decide_true (Transmitter.LED_PIN = Transmitter.LED_PIN)) by done.
    rewrite (bool_decide_true (Transmitter.SPEAKER_PIN = Transmitter.SPEAKER_PIN)) by done.
    rewrite !orb_true_r.
    destruct (pending d), (Z.testbit (d sio_gpio_out) Transmitter.LED_PIN),
      (Z.testbit (d sio_gpio_out) Transmitter.SPEAKER_PIN); done. }
  split; [exact Ho|]. rewrite Ho.
  unfold handler_device. by destruct (pending d).
Qed.

End HandlerExtras.

(** ** The application entry point *)

Section MainExtras.

Import Obs Effects.
Local Open Scope exec_scope.

(** The setup of [main] on a machine that has already logged events. *)
Lemma main_setup_run_log fuel d l :
  Transmitter.main_setup (S fuel) (Machine d l) =
    (Done tt,
     Machine (replay (setup_events d) d) (rev (setup_events d) ++ l)).
Proof.
  unfold Transmitter.main_setup.
  unfold Exec.bind at 1. unfold load at 1. cbv beta iota zeta.
  unfold Exec.bind at 1. unfold store at 1. cbv beta iota zeta.
  unfold Exec.bind at 1. rewrite reset_poll.
  2:{ unfold dev, write, read. rewrite fn_lookup_insert.
      apply reset_bit_cleared. }
  do 8 (unfold Exec.bind at 1; unfold store at 1; cbv beta iota zeta).
  unfold Exec.bind at 1. unfold load at 1. cbv beta iota zeta.
  unfold Exec.bind at 1. unfold store at 1. cbv beta iota zeta.
  unfold store. cbn [dev log].
  change (Transmitter.idx Transmitter.BUTTON_PIN) with 16%nat.
  change (Transmitter.idx Transmitter.LED_PIN) with 25%nat.
  change (Transmitter.idx Transmitter.SPEAKER_PIN) with 21%nat.
  change (Transmitter.idx (Transmitter.BUTTON_PIN ÷ 8)) with 2%nat.
  rewrite read_write_reset.
  cbn [read]. rewrite !write_frame by (cbn; done).
  reflexivity.
Qed.

(** The registers of the device the setup leaves. *)
Lemma setup_device_frame d r :
  r ∉ setup_touched → replay (setup_events d) d r = d r.
Proof.
  intros Hr. unfold replay, setup_events. cbn [fold_left].
  unfold setup_touched in Hr. rewrite !not_elem_of_cons in Hr.
  destruct Hr as (?&?&?&?&?&?&?&?&?&_).
  rewrite !write_frame by (cbn; done). reflexivity.
Qed.

Lemma setup_device_ctrl d n :
  n ∈ [16; 21; 25]%nat → replay (setup_events d) d (io_gpio_ctrl n) = 5.
Proof.
  intros Hn. unfold replay, setup_events. cbn [fold_left].
  rewrite !elem_of_cons in Hn.
  destruct Hn as [->|[->|[->|Hn]]]; [| | |by apply elem_of_nil in Hn];
    dev_lookup; reflexivity.
Qed.

Lemma setup_device_pads d : replay (setup_events d) d (pads_gpio 16) = 0x48.
Proof.
  unfold replay, setup_events. cbn [fold_left]. dev_lookup. reflexivity.
Qed.

Lemma setup_device_oe d :
  replay (setup_events d) d sio_gpio_oe
  = Z.lor (Z.lor (Z.ldiff (d sio_gpio_oe) (2 ^ 16)) (2 ^ 25)) (2 ^ 21).
Proof.
  unfold replay, setup_events. cbn [fold_left]. dev_lookup. reflexivity.
Qed.

Lemma setup_device_reset d :
  replay (setup_events d) d RESETS_RESET
  = Z.land (d RESETS_RESET) (Z.ldiff (Z.ones 32) (2 ^ 5)).
Proof.
  unfold replay, setup_events. cbn [fold_left]. dev_lookup. reflexivity.
Qed.

Lemma setup_device_intr d :
  replay (setup_events d) d (io_intr 2)
  = Z.ldiff (d (io_intr 2)) (Z.lor (2 ^ 2) (2 ^ 3)).
Proof.
  unfold replay, setup_events. cbn [fold_left]. dev_lookup. reflexivity.
Qed.

Lemma setup_device_inte d :
  replay (setup_events d) d (io_proc0_inte 2)
  = Z.lor (d (io_proc0_inte 2)) (2 ^ 3).
Proof.
  unfold replay, setup_events. cbn [fold_left]. dev_lookup. reflexivity.
Qed.


(** X6: the setup arms the rising edge of the button without a stale
    event.  Its last four accesses are, in this order, the store that
    clears the latches of the button pin, the load and the store that add
    the rising-edge enable of the button, and the store that enables the
    interrupt in the NVIC; nothing before them touches the raw interrupt
    word, the enable word or the NVIC.  At the NVIC store, and after the
    setup, the source reads pending only if it is forced; every other
    enable bit is kept; and with that enable word a device in which the
    rising edge is latched reads the source pending. *)
Theorem X6_setup_arms_rising_edge fuel d :
  ∃ m pre,
    Transmitter.main_setup (S fuel) (boot d) = (Done tt, m) ∧
    trace m
      = pre
        ++ [ EvStore (io_intr button_word) 0xF;
             EvLoad (io_proc0_inte button_word)
               (d (io_proc0_inte button_word));
             EvStore (io_proc0_inte button_word)
               (Z.lor (d (io_proc0_inte button_word)) (2 ^ button_bit));
             EvStore NVIC_ISER (2 ^ Transmitter.IO_BANK0_IRQ) ] ∧
    Forall (λ e, reg_of e ≠ Some (io_intr button_word) ∧
                 reg_of e ≠ Some (io_proc0_inte button_word) ∧
                 reg_of e ≠ Some NVIC_ISER) pre ∧
    pending
      (replay
         (pre ++ [ EvStore (io_intr button_word) 0xF;
                   EvLoad (io_proc0_inte button_word)
                     (d (io_proc0_inte button_word));
                   EvStore (io_proc0_inte button_word)
                     (Z.lor (d (io_proc0_inte button_word))
                        (2 ^ button_bit)) ]) d)
      = forced d ∧
    pending (dev m) = forced d ∧
    (∀ b, 0 ≤ b →
          Z.testbit (dev m (io_proc0_inte button_word)) b
          = bool_decide (b = button_bit)
            || Z.testbit (d (io_proc0_inte button_word)) b) ∧
    (∀ d', d' (io_proc0_inte button_word) = dev m (io_proc0_inte button_word) →
           Z.testbit (d' (io_intr button_word)) button_bit = true →
           pending d' = true).
Proof.
  exists (Machine (replay (setup_events d) d) (rev (setup_events d))),
    (firstn 10 (setup_events d)).
  split; [apply main_setup_run|]. unfold dev.
  split; [unfold trace, log; rewrite rev_involutive; reflexivity|].
  split.
  { unfold setup_events. cbn [firstn].
    repeat (constructor; [by repeat split|]). constructor. }
  assert (∀ x : device,
            x (io_intr 2) = Z.ldiff (d (io_intr 2)) (Z.lor (2 ^ 2) (2 ^ 3)) →
            x (io_proc0_inte 2) = Z.lor (d (io_proc0_inte 2)) (2 ^ 3) →
            x (io_proc0_intf 2) = d (io_proc0_intf 2) →
            pending x = forced d) as Hpend.
  { intros x Hi He Hf. unfold pending, forced. change button_word with 2%nat.
    change button_bit with 3. cbn [read]. rewrite Hi, He, Hf.
    rewrite Z.lor_spec, Z.land_spec, Z.ldiff_spec, Z.lor_spec.
    rewrite !testbit_pow2 by lia.
    repeat case_bool_decide; try lia. by rewrite andb_false_r. }
  split.
  { apply Hpend; unfold replay, setup_events; change button_word with 2%nat;
      change button_bit with 3; cbn [firstn app fold_left];
      dev_lookup; reflexivity. }
  split.
  { apply Hpend;
      [ apply setup_device_intr | apply setup_device_inte
      | apply setup_device_frame; unfold setup_touched;
        rewrite !not_elem_of_cons; repeat split; try done;
        apply not_elem_of_nil ]. }
  change button_word with 2%nat. change button_bit with 3.
  rewrite setup_device_inte. split.
  - intros b Hb. rewrite Z.lor_spec, testbit_pow2 by lia. apply orb_comm.
  - intros d' He Hi. unfold pending. change button_word with 2%nat.
    change button_bit with 3. cbn [read].
    rewrite He, Z.lor_spec, Z.land_spec, Z.lor_spec, Hi.
    rewrite testbit_pow2 by lia. rewrite bool_decide_true by done.
    by rewrite orb_true_r.
Qed.

(** The test pattern with the device it leaves. *)
Lemma main_pattern_effect m :
  Transmitter.main_pattern m
  = (Done tt, Machine (pattern_device (dev m)) (rev pattern_events ++ log m)).
Proof.
  unfold Transmitter.main_pattern, pattern_device, blink_device.
  rewrite outputs_mask, rev_pattern_events.
  change (Z.shiftl 1 Transmitter.LED_PIN) with 0x2000000.
  rewrite for_lt_step by lia. cbv beta.
  rewrite for_lt_step by lia. cbv beta.
  rewrite for_lt_step by lia. cbv beta.
  rewrite for_lt_done by lia.
  unfold Exec.bind at 1. unfold Exec.bind at 1.
  rewrite blink_run. cbv beta iota.
  unfold Exec.bind at 1. rewrite blink_run. cbv beta iota.
  unfold Exec.bind at 1. rewrite blink_run. cbv beta iota.
  unfold ret at 1. cbv beta iota.
  unfold Exec.bind at 1. unfold store at 1. cbv beta iota.
  unfold Exec.bind at 1. rewrite delay_spec by lia. cbv beta iota.
  unfold store. cbn [dev log].
  reflexivity.
Qed.

Lemma pattern_device_out d b :
  0 ≤ b →
  Z.testbit (pattern_device d sio_gpio_out) b
  = Z.testbit (d sio_gpio_out) b
    && negb (bool_decide (b = Transmitter.SPEAKER_PIN)
             || bool_decide (b = Transmitter.LED_PIN)).
Proof.
  intros Hb. unfold pattern_device, blink_device. dev_lookup.
  change 0x2000000 with (2 ^ 25).
  repeat (rewrite Z.ldiff_spec || rewrite Z.lor_spec).
  rewrite !testbit_outputs_mask, !testbit_pow2 by lia.
  change Transmitter.LED_PIN with 25.
  destruct (Z.testbit (d sio_gpio_out) b), (bool_decide (b = _)),
    (bool_decide (b = 25)); done.
Qed.

Lemma pattern_device_frame d r :
  r ≠ sio_gpio_out → pattern_device d r = d r.
Proof.
  intros Hr. unfold pattern_device, blink_device.
  rewrite !write_frame by (cbn; done). reflexivity.
Qed.


(** [main] from any device and log: setup, pattern, then the idle loop. *)
Lemma main_run_log fuel d l :
  Transmitter.main (S fuel) (Machine d l)
  = (OutOfFuel,
     Machine (pattern_device (replay (setup_events d) d))
       (repeat EvWfi (S fuel)
        ++ rev pattern_events ++ rev (setup_events d) ++ l)).
Proof.
  unfold Transmitter.main.
  unfold Exec.bind at 1. rewrite main_setup_run_log.
  unfold Exec.bind at 1. rewrite main_pattern_effect.
  unfold Exec.bind at 1. rewrite while_true_wfi.
  reflexivity.
Qed.

(** X8: the boot sequence of the linked firmware.  From reset the reset
    handler calls [main], which runs its setup and its test pattern and
    then idles: however much fuel there is, the run is the call, the
    setup, the pattern and one wait-for-interrupt per further round, the
    LED and the speaker are low, and the halting loop of the reset handler
    is never reached. *)
Theorem X8_boot_reaches_idle fuel d :
  ∃ m, Startup.resetHandler Transmitter.main (S fuel) (boot d)
       = (OutOfFuel, m) ∧
    trace m = EvCall Sym.main :: setup_events d ++ pattern_events
                ++ repeat EvWfi (S fuel) ∧
    outputs_off (dev m) = true.
Proof.
  unfold Startup.resetHandler.
  unfold Exec.bind at 1. unfold emit at 1. cbv beta iota.
  unfold Exec.bind at 1. unfold boot, dev, log. rewrite main_run_log.
  eexists. split; [reflexivity|]. split.
  - unfold trace, log.
    rewrite !rev_app_distr, !rev_involutive, rev_repeat.
    cbn [rev app]. by rewrite <- !app_assoc.
  - unfold outputs_off, dev. rewrite !pattern_device_out by done.
    rewrite (bool_decide_true (Transmitter.LED_PIN = Transmitter.LED_PIN)) by done.
    rewrite (bool_decide_true (Transmitter.SPEAKER_PIN = Transmitter.SPEAKER_PIN)) by done.
    by rewrite !orb_true_r, !andb_false_r.
Qed.

(** X9: [main] never returns to its caller, from any machine state and
    with any amount of fuel: it is polling the reset register or idling
    in its final loop when the fuel is spent. *)
Theorem X9_main_never_returns fuel m :
  (Transmitter.main fuel m).1 = OutOfFuel ∧
  ∀ r m', Transmitter.main fuel m ≠ (Done r, m').
Proof.
  pose proof (main_never_returns fuel m) as Hn.
  split; [exact Hn|]. intros r m' Heq.
  apply (f_equal fst) in Heq. rewrite Hn in Heq. discriminate Heq.
Qed.

End MainExtras.

(** ** The vector table and the link *)

Section TableExtras.

Import Link Startup.

(** X10: every handler declared weak in [startup.c] is placed in the
    vector table, in exactly one slot: an application definition of the
    symbol is reached from one interrupt or exception and no other. *)
Theorem X10_weak_handler_has_one_slot s :
  declared s = WeakAlias Sym.defaultHandler →
  ∃ i, vector !! i = Some (Fn s) ∧
       ∀ j, vector !! j = Some (Fn s) → j = i.
Proof.
  intros Hs.
  destruct s; try discriminate Hs;
    (let rec find n :=
       first [ exists n; split; [reflexivity|] | find (S n) ] in
     find 0%nat).
  all: intros j Hj;
    do 48 (destruct j as [|j]; [first [discriminate Hj | reflexivity]|]);
    by rewrite lookup_ge_None_2 in Hj by (simpl; lia).
Qed.

Lemma X10_weak_handler_has_one_slot_witness :
  ∃ i, vector !! i = Some (Fn Sym.ioIrqBank0) ∧
       ∀ j, vector !! j = Some (Fn Sym.ioIrqBank0) → j = i.
Proof. apply (X10_weak_handler_has_one_slot Sym.ioIrqBank0). reflexivity. Defined.

Lemma defs_in_cons_ne app s s' :
  s ≠ s' → defs_in (s :: app) s' = defs_in app s'.
Proof. intros Hne. unfold defs_in. by rewrite filter_cons_False. Qed.

Lemma defs_in_cons_eq app s : defs_in (s :: app) s = S (defs_in app s).
Proof. unfold defs_in. by rewrite filter_cons_True. Qed.

(** The slot of a weak handler symbol. *)
Lemma weak_symbol_slot s :
  declared s = WeakAlias Sym.defaultHandler →
  ∃ i, (i < 48)%nat ∧ vector !! i = Some (Fn s) ∧
       ∀ j, vector !! j = Some (Fn s) → j = i.
Proof.
  intros Hs.
  destruct s; try discriminate Hs;
    (let rec find n :=
       first [ exists n; split; [lia|]; split; [reflexivity|]
             | find (S n) ] in
     find 0%nat).
  all: intros j Hj;
    do 48 (destruct j as [|j]; [first [discriminate Hj | reflexivity]|]);
    by rewrite lookup_ge_None_2 in Hj by (simpl; lia).
Qed.

(** X11: one more handler changes exactly one slot.  When the firmware
    links both without and with an application definition of a symbol,
    that symbol is one of the weak handlers of [startup.c], and the two
    vector tables differ in exactly one slot, which held the Default Trap
    and now holds the new definition; the other forty-seven slots are the
    same. *)
Theorem X11_override_changes_one_slot app s r r' :
  link app = Some r → link (s :: app) = Some r' →
  declared s = WeakAlias Sym.defaultHandler ∧
  ∃ i, (i < length vector)%nat ∧
       image r !! i = Some (SlotCode (Here Sym.defaultHandler)) ∧
       image r' !! i = Some (SlotCode (App s)) ∧
       ∀ j, j ≠ i → image r' !! j = image r !! j.
Proof.
  intros Hl Hl'.
  pose proof (link_Some_ok _ _ s Hl) as Hok.
  pose proof (link_Some_ok _ _ s Hl') as Hok'.
  apply link_Some in Hl as ->. apply link_Some in Hl' as ->.
  unfold link_ok in Hok, Hok'. rewrite defs_in_cons_eq in Hok'.
  assert (declared s = WeakAlias Sym.defaultHandler ∧ defs_in app s = 0%nat)
    as [Hw H0].
  { destruct s; simpl in *;
      first [ discriminate Hok'
            | split; [reflexivity|]; apply Nat.leb_le in Hok'; lia
            | apply Nat.eqb_eq in Hok; apply Nat.eqb_eq in Hok'; lia ]. }
  split; [exact Hw|].
  destruct (weak_symbol_slot s Hw) as (i & Hi & Hvi & Huniq).
  exists i. rewrite vector_length. split; [exact Hi|].
  rewrite !image_lookup, Hvi. simpl.
  split; [|split].
  - do 2 f_equal. unfold resolve. by rewrite Hw, H0.
  - do 2 f_equal. unfold resolve. by rewrite Hw, defs_in_cons_eq.
  - intros j Hj. rewrite !image_lookup.
    destruct (vector !! j) as [[|s'|]|] eqn:Hvj; try done.
    simpl. do 2 f_equal. unfold resolve.
    rewrite defs_in_cons_ne; [done|].
    intros ->. apply Hj. by apply Huniq.
Qed.

Lemma X11_override_changes_one_slot_witness :
  declared Sym.ioIrqBank0 = WeakAlias Sym.defaultHandler ∧
  ∃ i, (i < length vector)%nat ∧
       image (resolve [Sym.main]) !! i
         = Some (SlotCode (Here Sym.defaultHandler)) ∧
       image (resolve [Sym.ioIrqBank0; Sym.main]) !! i
         = Some (SlotCode (App Sym.ioIrqBank0)) ∧
       ∀ j, j ≠ i → image (resolve [Sym.ioIrqBank0; Sym.main]) !! j
                    = image (resolve [Sym.main]) !! j.
Proof.
  apply (X11_override_changes_one_slot [Sym.main] Sym.ioIrqBank0
           (resolve [Sym.main]) (resolve [Sym.ioIrqBank0; Sym.main]));
    reflexivity.
Defined.

End TableExtras.

(** ** The interrupt the application enables *)

Section EnableClaim.

Import Obs Effects Link Startup.

Lemma filter_none {A} (P : A → Prop) `{∀ x, Decision (P x)} (l : list A) :
  Forall (λ x, ¬ P x) l → filter P l = [].
Proof. induction 1; [done|]. by rewrite filter_cons_False. Qed.

(** C10: the interrupt [main] enables is the one the application
    handles.  In its whole run [main] accesses [NVIC_ISER] once, with the
    store of bit [IO_BANK0_IRQ] (13), which sets that enable bit and no
    other; slot [16 + 13] of the vector table names [ioIrqBank0], the
    interrupt number 13 of the published layout; and in the image linked
    with [transmitter.c] that slot holds the application's
    [ioIrqBank0]. *)
Theorem C10_enabled_interrupt_has_handler fuel d :
  vector !! (16 + Z.to_nat Transmitter.IO_BANK0_IRQ)%nat
    = Some (Fn Sym.ioIrqBank0) ∧
  Reference.rp2040_irq (Z.to_nat Transmitter.IO_BANK0_IRQ)
    = Fn Sym.ioIrqBank0 ∧
  link Transmitter.defs = Some (resolve Transmitter.defs) ∧
  image (resolve Transmitter.defs)
    !! (16 + Z.to_nat Transmitter.IO_BANK0_IRQ)%nat
    = Some (SlotCode (App Sym.ioIrqBank0)) ∧
  ∃ m, Transmitter.main (S fuel) (boot d) = (OutOfFuel, m) ∧
       filter (λ e, reg_of e = Some NVIC_ISER) (trace m)
         = [EvStore NVIC_ISER (2 ^ Transmitter.IO_BANK0_IRQ)] ∧
       ∀ b, 0 ≤ b →
            Z.testbit (dev m NVIC_ISER) b
            = if decide (b = Transmitter.IO_BANK0_IRQ) then true
              else Z.testbit (d NVIC_ISER) b.
Proof.
  do 4 (split; [reflexivity|]).
  eexists. split; [apply main_run_log|].
  unfold trace, log, dev. split.
  - rewrite app_nil_r, !rev_app_distr, !rev_involutive, rev_repeat.
    rewrite !list.filter_app.
    rewrite (filter_none _ pattern_events)
      by (by apply Forall_pattern_events).
    rewrite (filter_none _ (repeat EvWfi (S fuel)))
      by (by apply Forall_repeat).
    reflexivity.
  - intros b Hb. rewrite pattern_device_frame by done.
    rewrite setup_device_iser, Z.lor_spec.
    change 0x2000 with (2 ^ 13). rewrite Z.pow2_bits_eqb by lia.
    change Transmitter.IO_BANK0_IRQ with 13.
    destruct (decide (b = 13)) as [->|Hne].
    + by rewrite orb_true_r.
    + destruct (Z.eqb_spec 13 b); [congruence|]. by rewrite orb_false_r.
Qed.

End EnableClaim.
